(** * gocat: the agent's communication-channel manager and beacon decoding

    A shallow embedding of [agent/agent.go] (profile views, [Beacon],
    [processBeacon]) and of the comms-channel file of package [agent]
    ([AgentCommsChannel] and the [Agent] methods that select, validate,
    switch and rotate channels), followed by the properties of the
    specification that concern them.

    Conventions of the embedding.
    - Go [string] and [[]byte] are [string]; a nil-able value (interface,
      pointer, map, byte slice) is an [option]; Go [int] is [Z].
    - A Go function returning [(T, error)] returns a pair whose second
      component is [option error] ([None] is the nil error).
    - A method with a pointer receiver returns the mutated receiver next
      to its results; struct values are copied on assignment as in Go.
    - Calls that leave the process (negotiation with a contact, the
      notifications sent to peer-to-peer receivers, the beacon request)
      act on an abstract [World] and are recorded, in order, in a trace
      of events.
    - A run-time panic is an outcome of its own.
    - [output.VerbosePrint] only writes log lines; these calls are left
      out of the embedding. *)

From Stdlib Require Import ZArith Lia.
From stdpp Require Import base option strings list gmap.

Open Scope string_scope.
Open Scope Z_scope.
Open Scope list_scope.

(** ** Outcomes and the effect monad *)

Inductive outcome (A : Type) : Type :=
| Done (a : A)
| Panic (why : string).
Arguments Done {A} a.
Arguments Panic {A} why.

#[global] Instance outcome_mret : MRet outcome := fun A x => Done x.
#[global] Instance outcome_mbind : MBind outcome :=
  fun A B f m => match m with Done x => f x | Panic why => Panic why end.

(** A computation reads and updates the world outside the agent and
    appends to the trace of external calls; a panic stops it. *)
Definition Eff (World Event A : Type) : Type :=
  World -> outcome A * World * list Event.

Definition eff_ret {World Event A} (x : A) : Eff World Event A :=
  fun w => (Done x, w, []).

Definition eff_bind {World Event A B}
    (m : Eff World Event A) (f : A -> Eff World Event B) : Eff World Event B :=
  fun w =>
    match m w with
    | (Done x, w1, t1) =>
        match f x w1 with
        | (r, w2, t2) => (r, w2, t1 ++ t2)
        end
    | (Panic why, w1, t1) => (Panic why, w1, t1)
    end.

Definition eff_panic {World Event A} (why : string) : Eff World Event A :=
  fun w => (Panic why, w, []).

(** One external call: the world moves and the event is logged. *)
Definition eff_call {World Event A}
    (ev : Event) (act : World -> A * World) : Eff World Event A :=
  fun w => let '(x, w1) := act w in (Done x, w1, [ev]).

#[global] Instance eff_mret {World Event} : MRet (Eff World Event) :=
  fun A x => eff_ret x.
#[global] Instance eff_mbind {World Event} : MBind (Eff World Event) :=
  fun A B f m => eff_bind m f.

(** ** Go values behind [interface{}] *)

(** [float64] stays abstract: only its conversion to [int] is used, and
    the sources do no arithmetic on it. *)
#[warnings="-register-all"] Inductive GoVal (float64 : Type) : Type :=
| VNil
| VBool (b : bool)
| VFloat64 (f : float64)
| VInt (n : Z)
| VString (s : string)
| VStrings (l : list string)
| VSlice (l : list (GoVal float64))
| VMap (m : list (string * GoVal float64)).
Arguments VNil {float64}.
Arguments VBool {float64} b.
Arguments VFloat64 {float64} f.
Arguments VInt {float64} n.
Arguments VString {float64} s.
Arguments VStrings {float64} l.
Arguments VSlice {float64} l.
Arguments VMap {float64} m.

(** Go errors: [errors.New] as used in the sources, and the error that
    the contact registry gives for a name it does not know. *)
Inductive error : Type :=
| errors_New (msg : string)
| UnknownTransport (name : string).

(** ** The interfaces of the packages the agent calls

    [contact.Contact] and the peer-to-peer receiver are Go interfaces
    whose implementations live outside these two files: a class gives,
    for each method the sources call, its effect on the world and its
    result. *)

Class ContactAPI (World float64 Contact : Type) : Type := {
  GetName : Contact -> string;
  C2RequirementsMet :
    Contact -> gmap string (GoVal float64) -> gmap string string ->
    World -> (bool * option (gmap string string)) * World;
  GetBeaconBytes :
    Contact -> gmap string (GoVal float64) -> World -> option string * World
}.

Class P2pReceiverAPI (World Contact P2pReceiver : Type) : Type := {
  UpdateUpstreamComs : P2pReceiver -> option Contact -> World -> World;
  UpdateUpstreamServer : P2pReceiver -> string -> World -> World
}.

(** The external calls, as they appear in the trace. *)
Inductive Event (float64 Contact P2pReceiver : Type) : Type :=
| EvC2RequirementsMet (c : Contact)
    (profile : gmap string (GoVal float64)) (config : gmap string string)
| EvGetBeaconBytes (c : Contact) (profile : gmap string (GoVal float64))
| EvUpdateUpstreamComs (r : P2pReceiver) (c : option Contact)
| EvUpdateUpstreamServer (r : P2pReceiver) (address : string).
Arguments EvC2RequirementsMet {float64 Contact P2pReceiver} c profile config.
Arguments EvGetBeaconBytes {float64 Contact P2pReceiver} c profile.
Arguments EvUpdateUpstreamComs {float64 Contact P2pReceiver} r c.
Arguments EvUpdateUpstreamServer {float64 Contact P2pReceiver} r address.

(** ** Data of the agent *)

(** The profile fields of [Agent] (agent.go, lines 39-53). *)
Record AgentProfile : Type := mkAgentProfile {
  server : string;
  group : string;
  host : string;
  username : string;
  architecture : string;
  platform : string;
  location : string;
  pid : Z;
  ppid : Z;
  executors : list string;
  privilege : string;
  exe_name : string;
  paw : string
}.

(** [AgentCommsChannel] (comms file, lines 11-17). *)
Record AgentCommsChannel (Contact : Type) : Type := mkAgentCommsChannel {
  address : string;
  c2Protocol : string;
  c2Key : string;
  contactObj : option Contact;
  validated : bool
}.
Arguments mkAgentCommsChannel {Contact} _ _ _ _ _.
Arguments address {Contact} _.
Arguments c2Protocol {Contact} _.
Arguments c2Key {Contact} _.
Arguments contactObj {Contact} _.
Arguments validated {Contact} _.

(** The agent. Its profile fields are grouped in [profile]; the other
    fields are the ones the two files read or write. The comms file
    uses fields that the struct of agent.go does not declare:
    [agentComms], [validatedCommsChannels], [successfulCommsChannels],
    [successFulCommsChannelIndex], [tryingSwitchedContact] and
    [localP2pReceivers] are typed from their uses. [validatedCommsChannels] is an initialised map.
    [localP2pReceivers] is the collection in the order [range] visits
    it; a nil collection is the empty list. *)
Record Agent (Contact P2pReceiver : Type) : Type := mkAgent {
  profile : AgentProfile;
  beaconContact : option Contact;
  agentComms : AgentCommsChannel Contact;
  validatedCommsChannels : gmap string (AgentCommsChannel Contact);
  successfulCommsChannels : list (AgentCommsChannel Contact);
  successFulCommsChannelIndex : Z;
  tryingSwitchedContact : bool;
  localP2pReceivers : list P2pReceiver
}.
Arguments mkAgent {Contact P2pReceiver} _ _ _ _ _ _ _ _.
Arguments profile {Contact P2pReceiver} _.
Arguments beaconContact {Contact P2pReceiver} _.
Arguments agentComms {Contact P2pReceiver} _.
Arguments validatedCommsChannels {Contact P2pReceiver} _.
Arguments successfulCommsChannels {Contact P2pReceiver} _.
Arguments successFulCommsChannelIndex {Contact P2pReceiver} _.
Arguments tryingSwitchedContact {Contact P2pReceiver} _.
Arguments localP2pReceivers {Contact P2pReceiver} _.

(** ** The rest of agent.go: the host and the instruction path

    [agent.go] also selects the beacon and heartbeat contacts at start
    up, runs instructions and downloads payloads. The calls it makes
    for that are given by two more classes, with an event type of their
    own; what it reads from the operating system at start up is a
    record of facts. *)

(** A read of the world, and an update of it, that are not calls to
    another party. *)
Definition eff_read {World Event A} (f : World -> A) : Eff World Event A :=
  fun w => (Done (f w), w, []).

(** An outcome that touches neither the world nor the trace. *)
Definition eff_lift {World Event A} (o : outcome A) : Eff World Event A :=
  fun w => (o, w, []).

Definition eff_update {World Event} (f : World -> World) : Eff World Event unit :=
  fun w => (Done tt, f w, []).

(** The methods of [contact.Contact] on the instruction path. A
    [[]byte] result is the string of its bytes, empty for nil. *)
Class ContactPayloadAPI (World float64 Contact : Type) : Type := {
  GetPayloadBytes :
    Contact -> gmap string (GoVal float64) -> string -> World -> string * World;
  SendExecutionResults :
    Contact -> gmap string (GoVal float64) -> gmap string (GoVal float64) ->
    World -> World
}.

(** [execute.RunCommand], the package's helpers [fileExists] and
    [writePayloadBytes] (defined in another file of the package), and
    the assignment to [http.DefaultTransport] of line 65. *)
Class HostAPI (World float64 : Type) : Type := {
  RunCommand :
    string -> list string -> string -> Z ->
    World -> (GoVal float64 * GoVal float64 * GoVal float64) * World;
  fileExists : string -> World -> bool;
  writePayloadBytes : string -> string -> World -> option error * World;
  InsecureSkipVerify : World -> World
}.

Inductive HostEvent (float64 Contact : Type) : Type :=
| EvGetPayloadBytes (c : Contact)
    (profile : gmap string (GoVal float64)) (payload : string)
| EvWritePayloadBytes (location payloadBytes : string)
| EvRunCommand (command : string) (payloads : list string)
    (executor : string) (timeout : Z)
| EvSendExecutionResults (c : Contact)
    (profile result : gmap string (GoVal float64)).
Arguments EvGetPayloadBytes {float64 Contact} c profile payload.
Arguments EvWritePayloadBytes {float64 Contact} location payloadBytes.
Arguments EvRunCommand {float64 Contact} command payloads executor timeout.
Arguments EvSendExecutionResults {float64 Contact} c profile result.

(** What [Initialize] reads from the operating system and the
    runtime: the results of [os.Hostname], [user.Current] (the
    [Username] of the user it returns) and of running [whoami], and
    the values of [runtime.GOARCH], [runtime.GOOS], [os.Args[0]],
    [os.Getpid], [os.Getppid], [execute.AvailableExecutors] and
    [privdetect.Privlevel]. *)
Record HostFacts : Type := mkHostFacts {
  os_Hostname : string * option error;
  user_Current : option string * option error;
  whoami_CombinedOutput : string * option error;
  runtime_GOARCH : string;
  runtime_GOOS : string;
  os_Args0 : string;
  os_Getpid : Z;
  os_Getppid : Z;
  execute_AvailableExecutors : list string;
  privdetect_Privlevel : string
}.

(** The agent with the fields of agent.go's struct that [Agent] above
    does not carry (lines 53, 57 and 60). *)
Record FullAgent (float64 Contact P2pReceiver : Type) : Type := mkFullAgent {
  base : Agent Contact P2pReceiver;
  initialDelay : float64;
  heartbeatContact : option Contact;
  enableP2pReceivers : bool
}.
Arguments mkFullAgent {float64 Contact P2pReceiver} _ _ _ _.
Arguments base {float64 Contact P2pReceiver} _.
Arguments initialDelay {float64 Contact P2pReceiver} _.
Arguments heartbeatContact {float64 Contact P2pReceiver} _.
Arguments enableP2pReceivers {float64 Contact P2pReceiver} _.

(** ** Concrete contacts, receivers and agents

    A small world on which the embedding can be run: three contacts
    (HTTP accepts every negotiation, TCP accepts and assigns a paw, DNS
    rejects), receivers named by numbers, and a world that counts the
    external calls made so far. Numbers in beacons are integers here. *)

Module Demo.

Inductive contact : Type := HTTP | TCP | DNS.

Definition contactName (c : contact) : string :=
  match c with HTTP => "HTTP" | TCP => "TCP" | DNS => "DNS" end.

#[global] Instance contactAPI : ContactAPI nat Z contact := {|
  GetName := contactName;
  C2RequirementsMet c _ _ w :=
    match c with
    | HTTP => ((true, None), S w)
    | TCP => ((true, Some {[ "paw" := "p-17" ]}), S w)
    | DNS => ((false, None), S w)
    end;
  GetBeaconBytes _ _ w := (None, S w)
|}.

#[global] Instance receiverAPI : P2pReceiverAPI nat contact nat := {|
  UpdateUpstreamComs _ _ w := S w;
  UpdateUpstreamServer _ _ w := S w
|}.

Definition channels : gmap string contact :=
  {[ "HTTP" := HTTP; "TCP" := TCP; "DNS" := DNS ]}.

(** A profile modification that only knows the key [paw]. *)
Definition modifyProfile (config : gmap string string) (p : AgentProfile)
    : AgentProfile :=
  match config !! "paw" with
  | Some v =>
      mkAgentProfile (server p) (group p) (host p) (username p)
        (architecture p) (platform p) (location p) (pid p) (ppid p)
        (executors p) (privilege p) (exe_name p) v
  | None => p
  end.

(** The double quote, and a text between double quotes. *)
Definition dquote : string := String (Ascii.ascii_of_nat 34) EmptyString.
Definition quoted (s : string) : string := dquote +:+ s +:+ dquote.

(** Beacon texts: without [instructions]; with [instructions] an array
    instead of a string; with [sleep] a string; and a well-formed one. *)
Definition beaconNoInstructions : string :=
  "{" +:+ quoted "sleep" +:+ ":60," +:+ quoted "watchdog" +:+ ":0}".
Definition beaconArrayInstructions : string :=
  "{" +:+ quoted "instructions" +:+ ":[]," +:+ quoted "sleep" +:+ ":60," +:+
  quoted "watchdog" +:+ ":0}".
Definition beaconStringSleep : string :=
  "{" +:+ quoted "instructions" +:+ ":" +:+ quoted "[]" +:+ "," +:+
  quoted "sleep" +:+ ":" +:+ quoted "60" +:+ "," +:+
  quoted "watchdog" +:+ ":0}".
Definition beaconGood : string :=
  "{" +:+ quoted "instructions" +:+ ":" +:+ quoted "[]" +:+ "," +:+
  quoted "sleep" +:+ ":60," +:+ quoted "watchdog" +:+ ":0}".

(** A decoder that knows these texts, [null] and the empty array. *)
Definition json_decode (data : string) : option (GoVal Z) :=
  if String.eqb data beaconNoInstructions then
    Some (VMap [("sleep", VFloat64 60); ("watchdog", VFloat64 0)])
  else if String.eqb data beaconArrayInstructions then
    Some (VMap [("instructions", VSlice []); ("sleep", VFloat64 60);
                ("watchdog", VFloat64 0)])
  else if String.eqb data beaconStringSleep then
    Some (VMap [("instructions", VString "[]"); ("sleep", VString "60");
                ("watchdog", VFloat64 0)])
  else if String.eqb data beaconGood then
    Some (VMap [("instructions", VString "[]"); ("sleep", VFloat64 60);
                ("watchdog", VFloat64 0)])
  else if String.eqb data "null" then Some VNil
  else if String.eqb data "[]" then Some (VSlice [])
  else None.

Definition someProfile : AgentProfile :=
  mkAgentProfile "http://c2:8888" "red" "host1" "user" "amd64" "linux"
    "/tmp/agent" 100 1 ["sh"] "User" "agent" "".

Definition httpChannel : AgentCommsChannel contact :=
  mkAgentCommsChannel "http://c2:8888" "HTTP" "k0" (Some HTTP) true.

(** A DNS channel as the registry holds it after an earlier
    activation, with the key it was created with. *)
Definition dnsChannel : AgentCommsChannel contact :=
  mkAgentCommsChannel "http://c2:8888" "DNS" "old" (Some DNS) true.

Definition chanA : AgentCommsChannel contact :=
  mkAgentCommsChannel "a.example" "DNS" "" (Some DNS) true.
Definition chanB : AgentCommsChannel contact :=
  mkAgentCommsChannel "b.example" "DNS" "" (Some DNS) true.
Definition chanC : AgentCommsChannel contact :=
  mkAgentCommsChannel "c.example" "DNS" "" (Some DNS) true.

(** Active on HTTP, nothing recorded yet, two receivers attached. *)
Definition fresh : Agent contact nat :=
  mkAgent someProfile None httpChannel ∅ [] 0 false [1%nat; 2%nat].

(** Active on HTTP with the DNS channel for the same server already in
    the registry. *)
Definition withDns : Agent contact nat :=
  mkAgent someProfile None httpChannel
    {[ "HTTP-http://c2:8888" := httpChannel;
       "DNS-http://c2:8888" := dnsChannel ]} [] 0 false [].

(** A switch is in progress and the active channel is already in the
    history. *)
Definition switchingKnown : Agent contact nat :=
  mkAgent someProfile None httpChannel ∅ [httpChannel] 0 true [].

(** A switch is in progress and the history is empty. *)
Definition switchingNew : Agent contact nat :=
  mkAgent someProfile None httpChannel ∅ [] 0 true [].

(** History [A; B; C], every one of which rejects negotiation. *)
Definition rotating : Agent contact nat :=
  mkAgent someProfile None httpChannel ∅ [chanA; chanB; chanC] 0 false [].

(** The payload side of the contacts: [empty.bin] has no content on
    the server. *)
#[global] Instance contactPayloadAPI : ContactPayloadAPI nat Z contact := {|
  GetPayloadBytes _ _ payload w :=
    (if String.eqb payload "empty.bin" then EmptyString
     else "bytes of " +:+ payload, S w);
  SendExecutionResults _ _ _ w := S w
|}.

(** A host on which only [on-disk.bin] exists and [readonly.bin]
    cannot be written. *)
#[global] Instance hostAPI : HostAPI nat Z := {|
  RunCommand command _ _ _ w :=
    ((VString ("ran " +:+ command), VString "0", VString "42"), S w);
  fileExists location _ := String.eqb location "on-disk.bin";
  writePayloadBytes location _ w :=
    (if String.eqb location "readonly.bin"
     then Some (errors_New "permission denied") else None, S w);
  InsecureSkipVerify w := S w
|}.

(** The text after the last slash. *)
Fixpoint afterSlash (s acc : string) : string :=
  match s with
  | EmptyString => acc
  | String c rest =>
      if Ascii.eqb c (Ascii.ascii_of_nat 47) then afterSlash rest EmptyString
      else afterSlash rest (acc +:+ String c EmptyString)
  end.
Definition filepath_Base (s : string) : string := afterSlash s EmptyString.

(** A host that knows its user, and one where [user.Current] fails
    and [whoami] runs. *)
Definition hostFacts : HostFacts :=
  mkHostFacts ("host1", None) (Some "user", None) ("user", None)
    "amd64" "linux" "/tmp/agent" 100 1 ["sh"] "User".
Definition hostFactsNoUser : HostFacts :=
  mkHostFacts ("host1", None)
    (None, Some (errors_New "user: Current not implemented"))
    ("user", None) "amd64" "linux" "/tmp/agent" 100 1 ["sh"] "User".

(** Beaconing over HTTP. *)
Definition beaconing : Agent contact nat :=
  mkAgent someProfile (Some HTTP) httpChannel ∅ [] 0 false [].

(** The agent before [Initialize]. *)
Definition starting : FullAgent Z contact nat :=
  mkFullAgent
    (mkAgent (mkAgentProfile EmptyString EmptyString EmptyString EmptyString
                EmptyString EmptyString EmptyString 0 0 [] EmptyString
                EmptyString EmptyString)
       None (mkAgentCommsChannel EmptyString EmptyString EmptyString None false)
       ∅ [] 0 false [])
    0 None false.

Definition instruction : gmap string (GoVal Z) :=
  {[ "id" := VString "i-1"; "command" := VString "whoami";
     "executor" := VString "sh"; "timeout" := VFloat64 60 ]}.

End Demo.

(** ** The embedding *)

Section AgentModel.

Context {World float64 Contact P2pReceiver : Type}.
Context `{!ContactAPI World float64 Contact}.
Context `{!P2pReceiverAPI World Contact P2pReceiver}.

(** [contact.CommunicationChannels], the registry of contacts by name
    (read in agent.go, lines 187-189 and 217); it is filled before the
    agent starts. *)
Variable CommunicationChannels : gmap string Contact.

(** What [modifyAgentConfiguration] does to the profile fields, given
    the modifications a contact returned. *)
Variable modifyProfile : gmap string string -> AgentProfile -> AgentProfile.

(** [int(f)] for a [float64]. *)
Variable float64_to_int : float64 -> Z.

(** [encoding/json] decoding a text into an [interface{}]: [None] for a
    text that is not JSON, otherwise a JSON object as [VMap] (the
    entries of the Go map), an array as [VSlice], a number as
    [VFloat64], a string as [VString], a boolean as [VBool] and null as
    [VNil]. *)
Variable json_decode : string -> option (GoVal float64).

Local Abbreviation Val := (GoVal float64).
Local Abbreviation Channel := (AgentCommsChannel Contact).
Local Abbreviation AgentT := (Agent Contact P2pReceiver).
Local Abbreviation Ev := (Event float64 Contact P2pReceiver).
Local Abbreviation M := (Eff World Ev).

(** *** agent.go *)

(** Returns full profile for agent (lines 102-118). *)
Definition GetFullProfile (a : AgentT) : gmap string Val :=
  list_to_map
    [ ("paw", VString (paw (profile a)));
      ("server", VString (server (profile a)));
      ("group", VString (group (profile a)));
      ("host", VString (host (profile a)));
      ("username", VString (username (profile a)));
      ("architecture", VString (architecture (profile a)));
      ("platform", VString (platform (profile a)));
      ("location", VString (location (profile a)));
      ("pid", VInt (pid (profile a)));
      ("ppid", VInt (ppid (profile a)));
      ("executors", VStrings (executors (profile a)));
      ("privilege", VString (privilege (profile a)));
      ("exe_name", VString (exe_name (profile a))) ].

(** Return minimal subset of agent profile (lines 121-128). *)
Definition GetTrimmedProfile (a : AgentT) : gmap string Val :=
  list_to_map
    [ ("paw", VString (paw (profile a)));
      ("server", VString (server (profile a)));
      ("platform", VString (platform (profile a)));
      ("host", VString (host (profile a))) ].

(** [m[k]] on a [map[string]interface{}]: a nil map and a missing key
    both read as the nil interface. *)
Definition map_index (m : option (gmap string Val)) (k : string) : Val :=
  match m with
  | Some entries => default VNil (entries !! k)
  | None => VNil
  end.

(** [m[k] = v]: writing to a nil map panics. *)
Definition map_assign (m : option (gmap string Val)) (k : string) (v : Val)
    : outcome (option (gmap string Val)) :=
  match m with
  | Some entries => Done (Some (<[k := v]> entries))
  | None => Panic "assignment to entry in nil map"
  end.

(** [v.(string)], the one-result form: a mismatch panics. *)
Definition assert_string (v : Val) : outcome string :=
  match v with
  | VString s => Done s
  | _ => Panic "interface conversion: interface {} is not string"
  end.

(** [v.(float64)], the one-result form. *)
Definition assert_float64 (v : Val) : outcome float64 :=
  match v with
  | VFloat64 f => Done f
  | _ => Panic "interface conversion: interface {} is not float64"
  end.

(** [json.Unmarshal(data, &beacon)] for [beacon] a nil
    [map[string]interface{}]: an object gives a fresh map, null leaves
    the nil map, anything else is an error and leaves the nil map. *)
Definition Unmarshal_map (data : string)
    : option (gmap string Val) * option error :=
  match json_decode data with
  | None => (None, Some (errors_New "json: syntax error"))
  | Some VNil => (None, None)
  | Some (VMap entries) => (Some (list_to_map entries), None)
  | Some _ => (None, Some (errors_New "json: cannot unmarshal into map"))
  end.

(** [json.Unmarshal(data, &commands)] for [commands] a nil
    [interface{}]. *)
Definition Unmarshal_any (data : string) : Val * option error :=
  match json_decode data with
  | None => (VNil, Some (errors_New "json: syntax error"))
  | Some v => (v, None)
  end.

(** Converts the given data into a beacon with instructions
    (lines 144-160). *)
Definition processBeacon (data : string)
    : outcome (option (gmap string Val)) :=
  match Unmarshal_map data with
  | (beacon, Some _) => Done beacon
  | (beacon, None) =>
      instructions ← assert_string (map_index beacon "instructions");
      match Unmarshal_any instructions with
      | (_, Some _) => Done beacon
      | (commands, None) =>
          sleep ← assert_float64 (map_index beacon "sleep");
          beacon ← map_assign beacon "sleep" (VInt (float64_to_int sleep));
          watchdog ← assert_float64 (map_index beacon "watchdog");
          beacon ← map_assign beacon "watchdog" (VInt (float64_to_int watchdog));
          map_assign beacon "instructions" commands
      end
  end.

Definition eff_of_outcome {A} (o : outcome A) : M A :=
  fun w => (o, w, []).

(** Pings C2 for instructions and returns them (lines 131-141). The
    result is the nil map when the contact gives no bytes. *)
Definition Beacon (a : AgentT) : M (option (gmap string Val)) :=
  let profile := GetFullProfile a in
  match beaconContact a with
  | None => eff_panic "invalid memory address or nil pointer dereference"
  | Some c =>
      response ← eff_call (EvGetBeaconBytes c profile) (GetBeaconBytes c profile);
      match response with
      | Some data => eff_of_outcome (processBeacon data)
      | None => mret None
      end
  end.

(** *** The comms file: [AgentCommsChannel] methods *)

(** Modelled from the spec: [contact.GetContactByName] belongs to
    package [contact], which is not among the files embedded here. It
    looks the name up in the registry of contacts
    and fails with [UnknownTransport] when the name is absent; it does
    not contact the network. *)
Definition GetContactByName (name : string) : option Contact * option error :=
  match CommunicationChannels !! name with
  | Some c => (Some c, None)
  | None => (None, Some (UnknownTransport name))
  end.

(** Assignments to single fields of a channel. *)
Definition set_contactObj (a : Channel) (c : option Contact) : Channel :=
  mkAgentCommsChannel (address a) (c2Protocol a) (c2Key a) c (validated a).

Definition set_validated (a : Channel) (valid : bool) : Channel :=
  mkAgentCommsChannel (address a) (c2Protocol a) (c2Key a) (contactObj a) valid.

(** Does not attempt to check C2 contact requirements (lines 30-43).
    Returns the receiver as the call leaves it, and the error. *)
Definition Initialize (a : Channel) (address c2Protocol c2Key : string)
    : Channel * option error :=
  let a := mkAgentCommsChannel address c2Protocol c2Key (contactObj a) false in
  let '(c, err) := GetContactByName c2Protocol in
  let a := set_contactObj a c in
  match err with
  | Some e => (a, Some e)
  | None => (a, None)
  end.

(** [&AgentCommsChannel{}]. *)
Definition zeroChannel : Channel := mkAgentCommsChannel "" "" "" None false.

(** Lines 21-27. *)
Definition AgentCommsFactory (address c2Protocol c2Key : string)
    : option Channel * option error :=
  let newCommsChannel := zeroChannel in
  match Initialize newCommsChannel address c2Protocol c2Key with
  | (_, Some err) => (None, Some err)
  | (newCommsChannel, None) => (Some newCommsChannel, None)
  end.

(** Lines 45-51. *)
Definition GetConfig (a : Channel) : gmap string string :=
  list_to_map
    [ ("c2Name", c2Protocol a); ("c2Key", c2Key a); ("address", address a) ].

(** Lines 53-60. The receiver's [validated] flag is set to the verdict;
    the receiver is returned with the results. *)
Definition Validate (a : Channel) (agentProfile : gmap string Val)
    : M (bool * option (gmap string string) * Channel) :=
  match contactObj a with
  | None => mret (false, None, a)
  | Some c =>
      '(valid, modifications) ←
        eff_call (EvC2RequirementsMet c agentProfile (GetConfig a))
                 (C2RequirementsMet c agentProfile (GetConfig a));
      let a := set_validated a valid in
      mret (valid, modifications, a)
  end.

Definition GetKey (a : Channel) : string := c2Key a.
Definition GetContact (a : Channel) : option Contact := contactObj a.
Definition GetAddress (a : Channel) : string := address a.

(** Lines 74-79. *)
Definition GetContactName (a : Channel) : string :=
  match contactObj a with
  | None => ""
  | Some c => GetName c
  end.

Definition GetProtocol (a : Channel) : string := c2Protocol a.
Definition IsValidated (a : Channel) : bool := validated a.

(** [fmt.Sprintf("%s-%s", p, s)]. *)
Definition identifierOf (p s : string) : string := p +:+ "-" +:+ s.

(** Lines 89-91. *)
Definition GetIdentifier (a : Channel) : string :=
  identifierOf (c2Protocol a) (address a).

(** *** The comms file: [Agent] methods *)

(** Assignments to single fields of the agent. *)
Definition set_profile (a : AgentT) (p : AgentProfile) : AgentT :=
  mkAgent p (beaconContact a) (agentComms a) (validatedCommsChannels a)
    (successfulCommsChannels a) (successFulCommsChannelIndex a)
    (tryingSwitchedContact a) (localP2pReceivers a).

Definition set_agentComms (a : AgentT) (c : Channel) : AgentT :=
  mkAgent (profile a) (beaconContact a) c (validatedCommsChannels a)
    (successfulCommsChannels a) (successFulCommsChannelIndex a)
    (tryingSwitchedContact a) (localP2pReceivers a).

Definition set_validatedCommsChannels (a : AgentT)
    (m : gmap string Channel) : AgentT :=
  mkAgent (profile a) (beaconContact a) (agentComms a) m
    (successfulCommsChannels a) (successFulCommsChannelIndex a)
    (tryingSwitchedContact a) (localP2pReceivers a).

Definition set_successfulCommsChannels (a : AgentT)
    (l : list Channel) : AgentT :=
  mkAgent (profile a) (beaconContact a) (agentComms a)
    (validatedCommsChannels a) l (successFulCommsChannelIndex a)
    (tryingSwitchedContact a) (localP2pReceivers a).

Definition set_successFulCommsChannelIndex (a : AgentT) (i : Z) : AgentT :=
  mkAgent (profile a) (beaconContact a) (agentComms a)
    (validatedCommsChannels a) (successfulCommsChannels a) i
    (tryingSwitchedContact a) (localP2pReceivers a).

Definition set_tryingSwitchedContact (a : AgentT) (b : bool) : AgentT :=
  mkAgent (profile a) (beaconContact a) (agentComms a)
    (validatedCommsChannels a) (successfulCommsChannels a)
    (successFulCommsChannelIndex a) b (localP2pReceivers a).

Definition GetCurrentContact (a : AgentT) : option Contact :=
  GetContact (agentComms a).
Definition getCurrentServerAddress (a : AgentT) : string :=
  address (agentComms a).
Definition GetCurrentContactName (a : AgentT) : string :=
  GetContactName (agentComms a).
Definition getCurrentCommsProtocol (a : AgentT) : string :=
  GetProtocol (agentComms a).

(** Modelled from the spec: [modifyAgentConfiguration] is a method of
    [Agent] defined in neither of the two files. The negotiation's profile mutations are applied to
    the Agent Profile, which they may overwrite or extend; nothing else
    of the agent is touched. *)
Definition modifyAgentConfiguration (a : AgentT)
    (config : gmap string string) : AgentT :=
  set_profile a (modifyProfile config (profile a)).

(** Lines 123-129. *)
Definition addValidatedCommsChannel (a : AgentT) (commsChannel : Channel)
    : AgentT :=
  if IsValidated commsChannel then
    set_validatedCommsChannels a
      (<[GetIdentifier commsChannel := commsChannel]>
         (validatedCommsChannels a))
  else a.

(** Will return the AgentComms previously used for the given server and
    c2Protocol, or will return a new AgentComms that binds to that
    server/protocol pair (lines 133-146). The agent is only read. *)
Definition GetCommunicationChannel (a : AgentT)
    (server c2Protocol c2Key : string) : outcome (Channel * option error) :=
  let commsChannelIdentifier := identifierOf c2Protocol server in
  match validatedCommsChannels a !! commsChannelIdentifier with
  | None =>
      match AgentCommsFactory server c2Protocol c2Key with
      | (_, Some err) => Done (zeroChannel, Some err)
      | (Some newChannel, None) => Done (newChannel, None)
      | (None, None) =>
          Panic "invalid memory address or nil pointer dereference"
      end
  | Some commsChannel => Done (commsChannel, None)
  end.

(** The loop of lines 176-179 over the receivers. *)
Fixpoint notifyReceivers (receivers : list P2pReceiver)
    (commsChannel : Channel) : M unit :=
  match receivers with
  | [] => mret tt
  | receiver :: rest =>
      _ ← eff_call (EvUpdateUpstreamComs receiver (GetContact commsChannel))
            (fun w => (tt, UpdateUpstreamComs receiver
                             (GetContact commsChannel) w));
      _ ← eff_call (EvUpdateUpstreamServer receiver (GetAddress commsChannel))
            (fun w => (tt, UpdateUpstreamServer receiver
                             (GetAddress commsChannel) w));
      notifyReceivers rest commsChannel
  end.

(** Lines 169-181. *)
Definition setCommsChannel (a : AgentT) (commsChannel : Channel)
    (profileModifications : option (gmap string string)) : M AgentT :=
  let a := addValidatedCommsChannel a commsChannel in
  let a := match profileModifications with
           | Some mods => modifyAgentConfiguration a mods
           | None => a
           end in
  let a := set_agentComms a commsChannel in
  _ ← notifyReceivers (localP2pReceivers a) commsChannel;
  mret a.

(** Lines 156-167. [commsChannel] is the callee's own copy; [Validate]
    updates that copy. *)
Definition validateAndSetCommsChannelObj (a : AgentT) (commsChannel : Channel)
    : M (option error * AgentT) :=
  '(valid, profileModifications, commsChannel) ←
    Validate commsChannel (GetFullProfile a);
  let c2Protocol := GetProtocol commsChannel in
  if valid : bool then
    a ← setCommsChannel a commsChannel profileModifications;
    mret (None, a)
  else
    mret (Some (errors_New ("Requirements not met for C2 channel " +:+
                            c2Protocol +:+ " for server " +:+
                            GetAddress commsChannel)), a).

(** Lines 148-154. *)
Definition ValidateAndSetCommsChannel (a : AgentT)
    (server c2Protocol c2Key : string) : M (option error * AgentT) :=
  '(commsChannel, err) ←
    eff_of_outcome (GetCommunicationChannel a server c2Protocol c2Key);
  match err with
  | Some e => mret (Some e, a)
  | None => validateAndSetCommsChannelObj a commsChannel
  end.

(** Lines 111-121. *)
Definition setInitialCommsChannel (a : AgentT) (server : string)
    (c2Config : gmap string string) : M (option error * AgentT) :=
  match c2Config !! "c2Name" with
  | None =>
      mret (Some (errors_New
        "C2 config does not contain c2 protocol. Missing key: c2Name"), a)
  | Some c2Protocol =>
      let c2Key := match c2Config !! "c2Key" with
                   | Some k => k
                   | None => ""
                   end in
      ValidateAndSetCommsChannel a server c2Protocol c2Key
  end.

(** The loop of lines 187-192: is some recorded channel's identifier
    the given one? *)
Fixpoint alreadySuccessful (identifier : string) (l : list Channel) : bool :=
  match l with
  | [] => false
  | commsChannel :: rest =>
      if String.eqb (GetIdentifier commsChannel) identifier then true
      else alreadySuccessful identifier rest
  end.

(** Lines 183-199. *)
Definition UpdateSuccessfulContacts (a : AgentT) : AgentT :=
  if tryingSwitchedContact a then
    let identifier :=
      identifierOf (GetProtocol (agentComms a)) (getCurrentServerAddress a) in
    if alreadySuccessful identifier (successfulCommsChannels a) then a
    else
      let a := set_successfulCommsChannels a
                 (successfulCommsChannels a ++ [agentComms a]) in
      set_tryingSwitchedContact a false
  else a.

(** [s[i]] on a slice: out of range panics. *)
Definition slice_index {A} (s : list A) (i : Z) : option A :=
  if i <? 0 then None else s !! Z.to_nat i.

(** Lines 201-210. [%] is Go's remainder, [Z.rem]. [index + 1] cannot
    overflow: the index expression before it has already required
    [index < len]. *)
Definition switchToPreviousSuccessfulCommsChannel (a : AgentT)
    : M (option error * AgentT) :=
  let numSuccessfulChannels :=
    Z.of_nat (length (successfulCommsChannels a)) in
  if numSuccessfulChannels =? 0 then
    mret (Some (errors_New "No previous successful channels to try."), a)
  else
    match slice_index (successfulCommsChannels a)
                      (successFulCommsChannelIndex a) with
    | None => eff_panic "index out of range"
    | Some toTry =>
        let a := set_successFulCommsChannelIndex a
                   (Z.rem (successFulCommsChannelIndex a + 1)
                          numSuccessfulChannels) in
        validateAndSetCommsChannelObj a toTry
    end.

(** Lines 212-219. *)
Definition SwitchC2Contact (a : AgentT) (newContactName newKey : string)
    : M (option error * AgentT) :=
  let keyToUse := GetKey (agentComms a) in
  let keyToUse :=
    if 0 <? Z.of_nat (String.length newKey) then newKey else keyToUse in
  ValidateAndSetCommsChannel a (getCurrentServerAddress a)
    newContactName keyToUse.


(** *** agent.go: contacts at start up, instructions, payloads *)

Context `{!ContactPayloadAPI World float64 Contact}.
Context `{!HostAPI World float64}.

(** The facts [Initialize] reads. *)
Variable facts : HostFacts.

(** [filepath.Base], [filepath.Clean] and [float64(n)] for an [int]. *)
Variable filepath_Base : string -> string.
Variable filepath_Clean : string -> string.
Variable float64_of_int : Z -> float64.

Local Abbreviation FullAgentT := (FullAgent float64 Contact P2pReceiver).
Local Abbreviation HostEv := (HostEvent float64 Contact).
Local Abbreviation MH := (Eff World HostEv).

Definition set_beaconContact (a : AgentT) (c : option Contact) : AgentT :=
  mkAgent (profile a) c (agentComms a) (validatedCommsChannels a)
    (successfulCommsChannels a) (successFulCommsChannelIndex a)
    (tryingSwitchedContact a) (localP2pReceivers a).

(** [a.beaconContact = coms; a.heartbeatContact = coms]. *)
Definition setContacts (a : FullAgentT) (coms : Contact) : FullAgentT :=
  mkFullAgent (set_beaconContact (base a) (Some coms)) (initialDelay a)
    (Some coms) (enableP2pReceivers a).

(** [coms.C2RequirementsMet(profile, c2Config)] as agent.go uses it, for
    the verdict alone. *)
Definition requirementsMet (coms : Contact) (profile : gmap string Val)
    (c2Config : gmap string string) : M bool :=
  '(met, _) ← eff_call (EvC2RequirementsMet coms profile c2Config)
                 (C2RequirementsMet coms profile c2Config);
  mret met.

(** Sets backup communication channels in case the requested one isn't
    available (lines 215-229). *)
Definition SetDefaultCommunicationChannel (a : FullAgentT)
    (c2Config : gmap string string) : M (option error * FullAgentT) :=
  match CommunicationChannels !! "HTTP" with
  | Some coms =>
      met ← requirementsMet coms (GetFullProfile (base a)) c2Config;
      if met : bool then mret (None, setContacts a coms)
      else mret (Some (errors_New
                   "Default HTTP C2 channel requirements not met."), a)
  | None =>
      mret (Some (errors_New "Default HTTP C2 channel not available."), a)
  end.

(** Sets the C2 communication channels for the agent according to the
    specified C2 configuration map (lines 186-210). *)
Definition SetCommunicationChannels (a : FullAgentT)
    (c2Config : gmap string string) : M (option error * FullAgentT) :=
  if 0 <? Z.of_nat (size CommunicationChannels) then
    match c2Config !! "c2Name" with
    | Some c2Name =>
        match CommunicationChannels !! c2Name with
        | Some requestedComs =>
            met ← requirementsMet requestedComs
                    (GetFullProfile (base a)) c2Config;
            if met : bool then mret (None, setContacts a requestedComs)
            else SetDefaultCommunicationChannel a c2Config
        | None => SetDefaultCommunicationChannel a c2Config
        end
    | None => SetDefaultCommunicationChannel a c2Config
    end
  else mret (Some (errors_New "No possible communication channels found."), a).

(** The assignments of lines 81-93, given the user name set before
    them. The paw is left as it is. *)
Definition initializeFields (a : FullAgentT) (userName hostName : string)
    (server group : string) (enableP2pReceivers : bool) (initialDelay : Z)
    : FullAgentT :=
  let p := mkAgentProfile server group hostName userName
             (runtime_GOARCH facts) (runtime_GOOS facts) (os_Args0 facts)
             (os_Getpid facts) (os_Getppid facts)
             (execute_AvailableExecutors facts) (privdetect_Privlevel facts)
             (filepath_Base (os_Args0 facts)) (paw (profile (base a))) in
  mkFullAgent (set_profile (base a) p) (float64_of_int initialDelay)
    (heartbeatContact a) enableP2pReceivers.

(** Set up agent variables (lines 64-99). In the branch where
    [user.Current] fails, [err] is the error of running [whoami]: the
    user name is taken from its output when it fails, and when it
    succeeds the function returns that (nil) error. *)
Definition Agent_Initialize (a : FullAgentT) (server group : string)
    (c2Config : gmap string string) (enableP2pReceivers : bool)
    (initialDelay : Z) : M (option error * FullAgentT) :=
  _ ← eff_update InsecureSkipVerify;
  let '(hostName, err) := os_Hostname facts in
  match err with
  | Some e => mret (Some e, a)
  | None =>
      let '(userInfo, err) := user_Current facts in
      match err with
      | Some _ =>
          let '(usernameBytes, err) := whoami_CombinedOutput facts in
          match err with
          | Some _ =>
              SetCommunicationChannels
                (initializeFields a usernameBytes hostName server group
                   enableP2pReceivers initialDelay) c2Config
          | None => mret (None, a)
          end
      | None =>
          match userInfo with
          | Some userName =>
              SetCommunicationChannels
                (initializeFields a userName hostName server group
                   enableP2pReceivers initialDelay) c2Config
          | None =>
              eff_panic "invalid memory address or nil pointer dereference"
          end
      end
  end.

(** Runs a single instruction and send results (lines 172-181). The
    operands of [execute.RunCommand] are evaluated from the left, after
    the timeout. *)
Definition RunInstruction (a : AgentT) (command : gmap string Val)
    (payloads : list string) : MH unit :=
  timeout ← eff_lift
              (assert_float64 (map_index (Some command) "timeout"));
  let timeout := float64_to_int timeout in
  commandText ← eff_lift
                  (assert_string (map_index (Some command) "command"));
  executor ← eff_lift
               (assert_string (map_index (Some command) "executor"));
  '(commandOutput, status, pid) ←
    eff_call (EvRunCommand commandText payloads executor timeout)
      (RunCommand commandText payloads executor timeout);
  let result : gmap string Val :=
    <["pid" := pid]> (<["status" := status]> (<["output" := commandOutput]>
      (<["id" := map_index (Some command) "id"]> ∅))) in
  match beaconContact a with
  | None => eff_panic "invalid memory address or nil pointer dereference"
  | Some c =>
      eff_call (EvSendExecutionResults c (GetTrimmedProfile a) result)
        (fun w => (tt, SendExecutionResults c (GetTrimmedProfile a) result w))
  end.

(** [reflect.Value.String] of an element of a [[]interface{}]: the
    string itself, and for any other value the name of its type between
    angle brackets. *)
Definition reflect_String (v : Val) : string :=
  match v with
  | VString s => s
  | VNil => "<invalid Value>"
  | VBool _ => "<bool Value>"
  | VFloat64 _ => "<float64 Value>"
  | VInt _ => "<int Value>"
  | VStrings _ => "<[]string Value>"
  | VSlice _ => "<[]interface {} Value>"
  | VMap _ => "<map[string]interface {} Value>"
  end.

(** [filepath.Join] of one element: empty for the empty element, the
    cleaned element otherwise. *)
Definition filepath_Join (elem : string) : string :=
  if decide (elem = "") then "" else filepath_Clean elem.

(** One round of the loop of lines 247-267: is the payload on disk
    once the round is over? *)
Definition obtainPayload (a : AgentT) (payload location : string) : MH bool :=
  exists_ ← eff_read (fileExists location);
  if negb exists_ then
    match beaconContact a with
    | None => eff_panic "invalid memory address or nil pointer dereference"
    | Some c =>
        payloadBytes ←
          eff_call (EvGetPayloadBytes c (GetTrimmedProfile a) payload)
            (GetPayloadBytes c (GetTrimmedProfile a) payload);
        if 0 <? Z.of_nat (String.length payloadBytes) then
          err ← eff_call (EvWritePayloadBytes location payloadBytes)
                  (writePayloadBytes location payloadBytes);
          match err with
          | Some _ => mret false
          | None => mret true
          end
        else mret false
    end
  else mret true.

(** The loop, with the slice built so far. *)
Fixpoint downloadLoop (a : AgentT) (payloads : list Val)
    (droppedPayloads : list string) : MH (list string) :=
  match payloads with
  | [] => mret droppedPayloads
  | v :: rest =>
      let payload := reflect_String v in
      let location := filepath_Join payload in
      obtainedPayload ← obtainPayload a payload location;
      let droppedPayloads :=
        if obtainedPayload : bool then droppedPayloads ++ [location]
        else droppedPayloads in
      downloadLoop a rest droppedPayloads
  end.

(** Will download each individual payload listed, write them to disk,
    and will return the full file paths of each downloaded payload
    (lines 244-269). *)
Definition DownloadPayloads (a : AgentT) (payloads : list Val)
    : MH (list string) :=
  downloadLoop a payloads [].

(** Lines 288-292. *)
Definition SetPaw (a : AgentT) (newPaw : string) : AgentT :=
  if 0 <? Z.of_nat (String.length newPaw) then
    let p := profile a in
    set_profile a
      (mkAgentProfile (server p) (group p) (host p) (username p)
         (architecture p) (platform p) (location p) (pid p) (ppid p)
         (executors p) (privilege p) (exe_name p) newPaw)
  else a.

(** ** Notions used in the statements *)

(** The channel as [Validate] leaves it. *)
Definition withVerdict (c : Channel) (valid : bool) : Channel :=
  set_validated c valid.

(** The error of a rejected negotiation, naming transport and address. *)
Definition RequirementsNotMet (c : Channel) : error :=
  errors_New ("Requirements not met for C2 channel " +:+ c2Protocol c +:+
              " for server " +:+ address c).

(** The error of a rotation over an empty history. *)
Definition NoHistoricalChannels : error :=
  errors_New "No previous successful channels to try.".

(** What the receivers are sent, and what that does to the world, when
    [c] becomes the active channel. *)
Definition notifyEvents (receivers : list P2pReceiver) (c : Channel) : list Ev :=
  receivers ≫= (fun r => [EvUpdateUpstreamComs r (GetContact c);
                          EvUpdateUpstreamServer r (GetAddress c)]).

Definition notifyWorld (receivers : list P2pReceiver) (c : Channel)
    (w : World) : World :=
  foldl (fun w r => UpdateUpstreamServer r (GetAddress c)
                      (UpdateUpstreamComs r (GetContact c) w)) w receivers.

(** The agent after [setCommsChannel]. *)
Definition activated (a : AgentT) (c : Channel)
    (mods : option (gmap string string)) : AgentT :=
  let a1 := addValidatedCommsChannel a c in
  let a2 := match mods with
            | Some m => modifyAgentConfiguration a1 m
            | None => a1
            end in
  set_agentComms a2 c.

(** The negotiations in a trace: which contact was asked, with which
    channel configuration. *)
Definition negotiations (t : list Ev) : list (Contact * gmap string string) :=
  omap (fun ev => match ev with
                  | EvC2RequirementsMet c _ config => Some (c, config)
                  | _ => None
                  end) t.

(** The key a switch is asked to use, in the spec's words: the supplied
    key when it is not empty, the active channel's key otherwise. *)
Definition chosenKey (a : AgentT) (newKey : string) : string :=
  if decide (newKey = "") then c2Key (agentComms a) else newKey.

(** Every negotiation made by a switch carries the active channel's
    address and the chosen key. *)
Definition switchUsesChosenKey (a : AgentT) (name newKey : string)
    (w : World) : Prop :=
  forall ct config,
    (ct, config) ∈ negotiations (SwitchC2Contact a name newKey w).2 ->
    config !! "address" = Some (address (agentComms a)) /\
    config !! "c2Key" = Some (chosenKey a newKey).

(** [n] successive rotations, as a failover loop issues them; the
    errors are dropped. *)
Fixpoint rotations (n : nat) (a : AgentT) : M AgentT :=
  match n with
  | O => mret a
  | S n' =>
      '(_, a) ← switchToPreviousSuccessfulCommsChannel a;
      rotations n' a
  end.

(** [n] successive calls of [UpdateSuccessfulContacts]. *)
Fixpoint recordSuccesses (n : nat) (a : AgentT) : AgentT :=
  match n with
  | O => a
  | S n' => recordSuccesses n' (UpdateSuccessfulContacts a)
  end.

(** The operations on the agent. [OpTrySwitched] is the assignment to
    [tryingSwitchedContact] made by the beacon loop outside these
    files. *)
Inductive op : Type :=
| OpSetInitial (server : string) (c2Config : gmap string string)
| OpValidateAndSet (server c2Protocol c2Key : string)
| OpSwitchC2Contact (newContactName newKey : string)
| OpSwitchToPrevious
| OpUpdateSuccessful
| OpTrySwitched (b : bool).

Definition runOp (o : op) (a : AgentT) : M AgentT :=
  match o with
  | OpSetInitial server c2Config =>
      '(_, a) ← setInitialCommsChannel a server c2Config; mret a
  | OpValidateAndSet server c2Protocol c2Key =>
      '(_, a) ← ValidateAndSetCommsChannel a server c2Protocol c2Key; mret a
  | OpSwitchC2Contact newContactName newKey =>
      '(_, a) ← SwitchC2Contact a newContactName newKey; mret a
  | OpSwitchToPrevious =>
      '(_, a) ← switchToPreviousSuccessfulCommsChannel a; mret a
  | OpUpdateSuccessful => mret (UpdateSuccessfulContacts a)
  | OpTrySwitched b => mret (set_tryingSwitchedContact a b)
  end.

Fixpoint runOps (ops : list op) (a : AgentT) : M AgentT :=
  match ops with
  | [] => mret a
  | o :: rest => a ← runOp o a; runOps rest a
  end.

(** The identities recorded in the history. *)
Definition historyIds (a : AgentT) : list string :=
  GetIdentifier <$> successfulCommsChannels a.

(** The rotation cursor points into the history (or is 0 while the
    history is empty). *)
Definition cursorOk (a : AgentT) : Prop :=
  0 <= successFulCommsChannelIndex a /\
  (successFulCommsChannelIndex a < Z.of_nat (length (successfulCommsChannels a))
   \/ (successfulCommsChannels a = [] /\ successFulCommsChannelIndex a = 0)).

(** Every channel in the registry is validated, has a contact and is
    stored under its own identifier. *)
Definition registryOk (a : AgentT) : Prop :=
  forall k c, validatedCommsChannels a !! k = Some c ->
    validated c = true /\ is_Some (contactObj c) /\ k = GetIdentifier c.

(** The fields that only [UpdateSuccessfulContacts], the rotation and
    the beacon loop write. *)
Definition sameHistory (a a' : AgentT) : Prop :=
  successfulCommsChannels a' = successfulCommsChannels a /\
  successFulCommsChannelIndex a' = successFulCommsChannelIndex a /\
  tryingSwitchedContact a' = tryingSwitchedContact a /\
  localP2pReceivers a' = localP2pReceivers a.

Definition agentOk (a : AgentT) : Prop :=
  cursorOk a /\ NoDup (historyIds a) /\ registryOk a.

(** The stores of the agent only grow: every key of the registry of
    [a] is a key of the registry of [a'], and the history of [a] is a
    prefix of the history of [a']. *)
Definition storesGrow (a a' : AgentT) : Prop :=
  dom (validatedCommsChannels a) ⊆ dom (validatedCommsChannels a') /\
  successfulCommsChannels a `prefix_of` successfulCommsChannels a'.

(** The character ['-'], and a text without it. *)
Definition dash : Ascii.ascii := Ascii.ascii_of_nat 45.

Fixpoint noDash (s : string) : bool :=
  match s with
  | EmptyString => true
  | String c rest => negb (Ascii.eqb c dash) && noDash rest
  end.

(** The locations [DownloadPayloads] works on, in order. *)
Definition payloadLocations (payloads : list Val) : list string :=
  (fun v => filepath_Join (reflect_String v)) <$> payloads.

(** The payloads fetched from the contact, in order. *)
Definition fetches (t : list HostEv) : list string :=
  omap (fun ev => match ev with
                  | EvGetPayloadBytes _ _ payload => Some payload
                  | _ => None
                  end) t.

(** A beacon that [processBeacon] can finish with: the entries of the
    outer object, the instructions text and what it decodes to, and
    the two numbers. *)
Definition wellFormedBeacon (data : string) (beacon : gmap string Val)
    (commands : Val) (sleep watchdog : float64) : Prop :=
  exists entries instructions,
    json_decode data = Some (VMap entries) /\
    beacon = list_to_map entries /\
    beacon !! "instructions" = Some (VString instructions) /\
    json_decode instructions = Some commands /\
    beacon !! "sleep" = Some (VFloat64 sleep) /\
    beacon !! "watchdog" = Some (VFloat64 watchdog).

(** The contact is the one asked for or the default. *)
Definition selectable (c2Config : gmap string string) (c : Contact) : Prop :=
  CommunicationChannels !! "HTTP" = Some c \/
  exists name, c2Config !! "c2Name" = Some name /\
               CommunicationChannels !! name = Some c.

(** What a run of the selection amounts to. *)
Definition selectionResult (a : FullAgentT) (c2Config : gmap string string)
    (e : option error) (a' : FullAgentT) (w' : World) (t : list Ev) : Prop :=
  (length t <= 2)%nat /\
  (forall ev, ev ∈ t ->
     exists c, selectable c2Config c /\
       ev = EvC2RequirementsMet c (GetFullProfile (base a)) c2Config) /\
  match e with
  | Some _ => a' = a
  | None =>
      exists c w0 mods,
        selectable c2Config c /\
        a' = setContacts a c /\
        C2RequirementsMet c (GetFullProfile (base a)) c2Config w0
          = ((true, mods), w') /\
        last t = Some (EvC2RequirementsMet c (GetFullProfile (base a)) c2Config)
  end.

(** ** How the operations run *)

Ltac eff_unfold :=
  unfold mbind, eff_mbind, eff_bind, mret, eff_mret, eff_ret, eff_call,
    eff_panic, eff_of_outcome in *.

Lemma notifyReceivers_run receivers c w :
  notifyReceivers receivers c w
  = (Done tt, notifyWorld receivers c w, notifyEvents receivers c).
Proof.
  revert w. induction receivers as [|r rs IH]; intros w; [reflexivity|].
  cbn [notifyReceivers]. eff_unfold. rewrite IH. reflexivity.
Qed.

Lemma activated_receivers a c mods :
  localP2pReceivers (activated a c mods) = localP2pReceivers a.
Proof.
  unfold activated, addValidatedCommsChannel, modifyAgentConfiguration.
  destruct mods, (IsValidated c); reflexivity.
Qed.

Lemma setCommsChannel_run a c mods w :
  setCommsChannel a c mods w
  = (Done (activated a c mods),
     notifyWorld (localP2pReceivers a) c w,
     notifyEvents (localP2pReceivers a) c).
Proof.
  unfold setCommsChannel. fold (activated a c mods). eff_unfold.
  rewrite notifyReceivers_run, activated_receivers, app_nil_r. reflexivity.
Qed.

Lemma Validate_run c p w :
  Validate c p w =
  match contactObj c with
  | None => (Done (false, None, c), w, [])
  | Some ct =>
      let '(valid, mods, w1) := C2RequirementsMet ct p (GetConfig c) w in
      (Done (valid, mods, withVerdict c valid), w1,
       [EvC2RequirementsMet ct p (GetConfig c)])
  end.
Proof.
  unfold Validate, withVerdict, set_validated.
  destruct (contactObj c) as [ct|]; [|reflexivity].
  eff_unfold. destruct (C2RequirementsMet ct p (GetConfig c) w) as [[v m] w1].
  reflexivity.
Qed.

(** The one equation behind the activation properties: what
    [validateAndSetCommsChannelObj] returns, does to the world and
    logs, by cases on the contact and on the verdict. *)
Lemma validateAndSetCommsChannelObj_run a c w :
  validateAndSetCommsChannelObj a c w =
  match contactObj c with
  | None => (Done (Some (RequirementsNotMet c), a), w, [])
  | Some ct =>
      let '(valid, mods, w1) :=
        C2RequirementsMet ct (GetFullProfile a) (GetConfig c) w in
      if valid then
        (Done (None, activated a (withVerdict c true) mods),
         notifyWorld (localP2pReceivers a) (withVerdict c true) w1,
         EvC2RequirementsMet ct (GetFullProfile a) (GetConfig c)
           :: notifyEvents (localP2pReceivers a) (withVerdict c true))
      else
        (Done (Some (RequirementsNotMet c), a), w1,
         [EvC2RequirementsMet ct (GetFullProfile a) (GetConfig c)])
  end.
Proof.
  unfold validateAndSetCommsChannelObj.
  unfold mbind at 1, eff_mbind, eff_bind. rewrite Validate_run.
  destruct (contactObj c) as [ct|]; [|reflexivity].
  destruct (C2RequirementsMet ct (GetFullProfile a) (GetConfig c) w)
    as [[v m] w1].
  destruct v.
  - unfold mbind, eff_mbind, eff_bind. rewrite setCommsChannel_run.
    eff_unfold. rewrite app_nil_r. reflexivity.
  - reflexivity.
Qed.

Lemma GetCommunicationChannel_run a server c2Protocol c2Key :
  GetCommunicationChannel a server c2Protocol c2Key =
  match validatedCommsChannels a !! identifierOf c2Protocol server with
  | Some c => Done (c, None)
  | None =>
      match CommunicationChannels !! c2Protocol with
      | Some ct =>
          Done (mkAgentCommsChannel server c2Protocol c2Key (Some ct) false,
                None)
      | None => Done (zeroChannel, Some (UnknownTransport c2Protocol))
      end
  end.
Proof.
  unfold GetCommunicationChannel, AgentCommsFactory, Initialize,
    GetContactByName.
  destruct (validatedCommsChannels a !! identifierOf c2Protocol server);
    [reflexivity|].
  destruct (CommunicationChannels !! c2Protocol); reflexivity.
Qed.

Lemma ValidateAndSetCommsChannel_run a server c2Protocol c2Key w :
  ValidateAndSetCommsChannel a server c2Protocol c2Key w =
  match validatedCommsChannels a !! identifierOf c2Protocol server with
  | Some c => validateAndSetCommsChannelObj a c w
  | None =>
      match CommunicationChannels !! c2Protocol with
      | Some ct =>
          validateAndSetCommsChannelObj a
            (mkAgentCommsChannel server c2Protocol c2Key (Some ct) false) w
      | None => (Done (Some (UnknownTransport c2Protocol), a), w, [])
      end
  end.
Proof.
  unfold ValidateAndSetCommsChannel. rewrite GetCommunicationChannel_run.
  unfold mbind, eff_mbind, eff_bind, eff_of_outcome.
  destruct (validatedCommsChannels a !! identifierOf c2Protocol server).
  - destruct (validateAndSetCommsChannelObj a a0 w) as [[r w1] t].
    reflexivity.
  - destruct (CommunicationChannels !! c2Protocol).
    + destruct (validateAndSetCommsChannelObj _ _ w) as [[r w1] t].
      reflexivity.
    + reflexivity.
Qed.

(** *** What an activation leaves alone *)

Lemma sameHistory_refl a : sameHistory a a.
Proof. repeat split. Qed.

Lemma sameHistory_activated a c mods : sameHistory a (activated a c mods).
Proof.
  unfold activated, addValidatedCommsChannel, modifyAgentConfiguration.
  destruct mods, (IsValidated c); repeat split.
Qed.

Lemma registry_activated a c mods :
  validatedCommsChannels (activated a c mods) =
  if validated c then <[GetIdentifier c := c]> (validatedCommsChannels a)
  else validatedCommsChannels a.
Proof.
  unfold activated, addValidatedCommsChannel, modifyAgentConfiguration,
    IsValidated.
  destruct mods, (validated c); reflexivity.
Qed.

Lemma registryOk_activated a c mods :
  is_Some (contactObj c) -> registryOk a -> registryOk (activated a c mods).
Proof.
  intros Hc Hreg k c' Hk. rewrite registry_activated in Hk.
  destruct (validated c) eqn:Hv; [|eauto].
  destruct (decide (GetIdentifier c = k)) as [<-|Hne].
  - rewrite lookup_insert_eq in Hk. injection Hk as <-. auto.
  - rewrite lookup_insert_ne in Hk by exact Hne. eauto.
Qed.

(** An activation attempt always returns, keeps the history fields and
    keeps the registry well formed. *)
Lemma validateAndSetCommsChannelObj_total a c w :
  exists e a' w' t,
    validateAndSetCommsChannelObj a c w = (Done (e, a'), w', t) /\
    sameHistory a a' /\ (registryOk a -> registryOk a').
Proof.
  rewrite validateAndSetCommsChannelObj_run.
  destruct (contactObj c) as [ct|] eqn:Hc.
  - destruct (C2RequirementsMet ct (GetFullProfile a) (GetConfig c) w)
      as [[[] m] w1].
    + do 4 eexists. split; [reflexivity|]. split.
      * apply sameHistory_activated.
      * apply registryOk_activated. cbn. rewrite Hc. eauto.
    + do 4 eexists. split; [reflexivity|]. split; [apply sameHistory_refl|auto].
  - do 4 eexists. split; [reflexivity|]. split; [apply sameHistory_refl|auto].
Qed.

Lemma ValidateAndSetCommsChannel_total a server c2Protocol c2Key w :
  exists e a' w' t,
    ValidateAndSetCommsChannel a server c2Protocol c2Key w
      = (Done (e, a'), w', t) /\
    sameHistory a a' /\ (registryOk a -> registryOk a').
Proof.
  rewrite ValidateAndSetCommsChannel_run.
  destruct (validatedCommsChannels a !! identifierOf c2Protocol server).
  - apply validateAndSetCommsChannelObj_total.
  - destruct (CommunicationChannels !! c2Protocol).
    + apply validateAndSetCommsChannelObj_total.
    + do 4 eexists. split; [reflexivity|].
      split; [apply sameHistory_refl|auto].
Qed.

Lemma agentOk_sameHistory a a' :
  sameHistory a a' -> (registryOk a -> registryOk a') ->
  agentOk a -> agentOk a'.
Proof.
  intros (Hh & Hi & _ & _) Hreg (Hc & Hn & Hr).
  unfold agentOk, cursorOk, historyIds in *. rewrite Hh, Hi. auto.
Qed.

(** *** Recording a success *)

Lemma alreadySuccessful_spec identifier l :
  alreadySuccessful identifier l = true <-> identifier ∈ GetIdentifier <$> l.
Proof.
  induction l as [|c l IH]; cbn.
  - split; [discriminate|]. intros Hin. inversion Hin.
  - destruct (String.eqb_spec (GetIdentifier c) identifier) as [->|Hne].
    + split; [intros _; constructor|reflexivity].
    + rewrite IH. split.
      * intros Hin. constructor. exact Hin.
      * intros Hin. inversion Hin; subst; [congruence|assumption].
Qed.

Lemma activeIdentifier a :
  identifierOf (GetProtocol (agentComms a)) (getCurrentServerAddress a)
  = GetIdentifier (agentComms a).
Proof. reflexivity. Qed.

Lemma UpdateSuccessfulContacts_run a :
  UpdateSuccessfulContacts a =
  if tryingSwitchedContact a then
    if decide (GetIdentifier (agentComms a) ∈ historyIds a) then a
    else set_tryingSwitchedContact
           (set_successfulCommsChannels a
              (successfulCommsChannels a ++ [agentComms a])) false
  else a.
Proof.
  unfold UpdateSuccessfulContacts. rewrite activeIdentifier.
  destruct (tryingSwitchedContact a); [|reflexivity].
  destruct (alreadySuccessful _ _) eqn:Hal.
  - apply alreadySuccessful_spec in Hal.
    destruct (decide _) as [|Hn]; [reflexivity|]. destruct Hn. exact Hal.
  - destruct (decide _) as [Hin|]; [|reflexivity].
    apply alreadySuccessful_spec in Hin. congruence.
Qed.

Lemma UpdateSuccessfulContacts_agentOk a :
  agentOk a -> agentOk (UpdateSuccessfulContacts a).
Proof.
  intros Hok. rewrite UpdateSuccessfulContacts_run.
  destruct (tryingSwitchedContact a); [|exact Hok].
  destruct (decide _) as [Hin|Hnin]; [exact Hok|].
  destruct Hok as ((Hlo & Hhi) & Hnd & Hreg).
  split; [|split].
  - unfold cursorOk. cbn. rewrite length_app. cbn. split; [exact Hlo|].
    left. destruct Hhi as [Hlt|[_ H0]]; lia.
  - unfold historyIds in *. cbn. rewrite fmap_app. cbn.
    apply NoDup_app. split; [exact Hnd|]. split.
    + intros x Hx Hx'. apply list_elem_of_singleton in Hx'. subst x.
      exact (Hnin Hx).
    + apply NoDup_singleton.
  - exact Hreg.
Qed.

(** *** Rotating *)

Lemma slice_index_Some {A} (s : list A) i :
  0 <= i < Z.of_nat (length s) ->
  exists x, slice_index s i = Some x /\ s !! Z.to_nat i = Some x.
Proof.
  intros [Hlo Hhi]. unfold slice_index.
  destruct (Z.ltb_spec i 0) as [|_]; [lia|].
  destruct (lookup_lt_is_Some_2 s (Z.to_nat i)) as [x Hx]; [lia|].
  exists x. rewrite Hx. auto.
Qed.

Lemma switchToPrevious_empty a w :
  successfulCommsChannels a = [] ->
  switchToPreviousSuccessfulCommsChannel a w
  = (Done (Some NoHistoricalChannels, a), w, []).
Proof.
  intros He. unfold switchToPreviousSuccessfulCommsChannel. rewrite He.
  reflexivity.
Qed.

Lemma switchToPrevious_nonempty a w toTry :
  0 <= successFulCommsChannelIndex a ->
  successfulCommsChannels a !! Z.to_nat (successFulCommsChannelIndex a)
    = Some toTry ->
  switchToPreviousSuccessfulCommsChannel a w
  = validateAndSetCommsChannelObj
      (set_successFulCommsChannelIndex a
         ((successFulCommsChannelIndex a + 1)
            mod Z.of_nat (length (successfulCommsChannels a))))
      toTry w.
Proof.
  intros Hlo Hx. pose proof (lookup_lt_Some _ _ _ Hx) as Hlt.
  unfold switchToPreviousSuccessfulCommsChannel, slice_index.
  destruct (Z.eqb_spec (Z.of_nat (length (successfulCommsChannels a))) 0)
    as [H0|_]; [lia|].
  destruct (Z.ltb_spec (successFulCommsChannelIndex a) 0) as [|_]; [lia|].
  rewrite Hx. rewrite Z.rem_mod_nonneg by lia. reflexivity.
Qed.

Lemma switchToPrevious_total a w :
  agentOk a ->
  exists e a' w' t,
    switchToPreviousSuccessfulCommsChannel a w = (Done (e, a'), w', t) /\
    agentOk a'.
Proof.
  intros Hok. destruct (successfulCommsChannels a) as [|c0 l0] eqn:Hh.
  - rewrite switchToPrevious_empty by exact Hh. eauto 6.
  - destruct Hok as ((Hlo & Hhi) & Hnd & Hreg).
    destruct Hhi as [Hlt|[He _]]; [|congruence].
    destruct (slice_index_Some (successfulCommsChannels a)
                (successFulCommsChannelIndex a)) as (x & _ & Hx); [lia|].
    rewrite (switchToPrevious_nonempty a w x Hlo Hx).
    destruct (validateAndSetCommsChannelObj_total
                (set_successFulCommsChannelIndex a
                   ((successFulCommsChannelIndex a + 1)
                      mod Z.of_nat (length (successfulCommsChannels a))))
                x w) as (e & a' & w' & t & Hrun & Hsame & Hr).
    exists e, a', w', t. split; [exact Hrun|].
    apply (agentOk_sameHistory _ _ Hsame Hr).
    split; [|split]; [|exact Hnd|exact Hreg].
    unfold cursorOk. cbn.
    pose proof (Z.mod_pos_bound (successFulCommsChannelIndex a + 1)
                  (Z.of_nat (length (successfulCommsChannels a)))) as Hb.
    split; [lia|]. left. lia.
Qed.

(** *** Every sequence of operations *)

Lemma runOp_total o a w :
  agentOk a ->
  exists a' w' t, runOp o a w = (Done a', w', t) /\ agentOk a'.
Proof.
  intros Hok. destruct o as [srv cfg|srv p k|n k| | |b]; cbn [runOp].
  - unfold setInitialCommsChannel.
    destruct (cfg !! "c2Name") as [p|].
    + destruct (ValidateAndSetCommsChannel_total a srv p
                  (match cfg !! "c2Key" with Some k => k | None => "" end) w)
        as (e & a' & w' & t & Hrun & Hsame & Hr).
      eff_unfold. rewrite Hrun. rewrite app_nil_r.
      exists a', w', t. split; [reflexivity|].
      exact (agentOk_sameHistory _ _ Hsame Hr Hok).
    + eff_unfold. cbn. eauto.
  - destruct (ValidateAndSetCommsChannel_total a srv p k w)
      as (e & a' & w' & t & Hrun & Hsame & Hr).
    eff_unfold. rewrite Hrun. rewrite app_nil_r.
    exists a', w', t. split; [reflexivity|].
    exact (agentOk_sameHistory _ _ Hsame Hr Hok).
  - unfold SwitchC2Contact.
    destruct (ValidateAndSetCommsChannel_total a (getCurrentServerAddress a) n
                (if 0 <? Z.of_nat (String.length k) then k
                 else GetKey (agentComms a)) w)
      as (e & a' & w' & t & Hrun & Hsame & Hr).
    eff_unfold. rewrite Hrun. rewrite app_nil_r.
    exists a', w', t. split; [reflexivity|].
    exact (agentOk_sameHistory _ _ Hsame Hr Hok).
  - destruct (switchToPrevious_total a w Hok) as (e & a' & w' & t & Hrun & Hok').
    eff_unfold. rewrite Hrun. rewrite app_nil_r. eauto.
  - eff_unfold. do 3 eexists. split; [reflexivity|].
    apply UpdateSuccessfulContacts_agentOk, Hok.
  - eff_unfold. do 3 eexists. split; [reflexivity|]. exact Hok.
Qed.

Lemma runOps_total ops a w :
  agentOk a ->
  exists a' w' t, runOps ops a w = (Done a', w', t) /\ agentOk a'.
Proof.
  revert a w. induction ops as [|o ops IH]; intros a w Hok; cbn [runOps].
  - eff_unfold. eauto.
  - destruct (runOp_total o a w Hok) as (a1 & w1 & t1 & Hrun & Hok1).
    destruct (IH a1 w1 Hok1) as (a2 & w2 & t2 & Hrun2 & Hok2).
    unfold mbind, eff_mbind, eff_bind. rewrite Hrun, Hrun2. eauto.
Qed.

Lemma negotiations_notifyEvents receivers c :
  negotiations (notifyEvents receivers c) = [].
Proof.
  unfold negotiations, notifyEvents.
  induction receivers as [|r rs IH]; [reflexivity|]. cbn. exact IH.
Qed.

Lemma negotiations_app t1 t2 :
  negotiations (t1 ++ t2) = negotiations t1 ++ negotiations t2.
Proof. apply omap_app. Qed.

(** One attempt asks the channel's contact once, with the channel's
    own configuration, and asks nobody when the channel has no
    contact. *)
Lemma validateAndSetCommsChannelObj_negotiations a c w :
  negotiations (validateAndSetCommsChannelObj a c w).2 =
  match contactObj c with
  | Some ct => [(ct, GetConfig c)]
  | None => []
  end.
Proof.
  rewrite validateAndSetCommsChannelObj_run.
  destruct (contactObj c) as [ct|]; [|reflexivity].
  destruct (C2RequirementsMet ct (GetFullProfile a) (GetConfig c) w)
    as [[[] m] w1]; cbn; [|reflexivity].
  fold (negotiations (notifyEvents (localP2pReceivers a) (withVerdict c true))).
  rewrite negotiations_notifyEvents. reflexivity.
Qed.

Lemma validateAndSetCommsChannelObj_error a c w e a' w' t :
  validateAndSetCommsChannelObj a c w = (Done (e, a'), w', t) ->
  e <> Some NoHistoricalChannels.
Proof.
  rewrite validateAndSetCommsChannelObj_run.
  destruct (contactObj c) as [ct|].
  - destruct (C2RequirementsMet ct (GetFullProfile a) (GetConfig c) w)
      as [[[] m] w1]; intros [= <- _ _ _]; discriminate.
  - intros [= <- _ _ _]. discriminate.
Qed.

(** One rotation over a non-empty history. *)
Lemma switchToPrevious_step a w :
  cursorOk a -> successfulCommsChannels a <> [] ->
  exists toTry e a' w' t,
    successfulCommsChannels a !! Z.to_nat (successFulCommsChannelIndex a)
      = Some toTry /\
    switchToPreviousSuccessfulCommsChannel a w
      = validateAndSetCommsChannelObj
          (set_successFulCommsChannelIndex a
             ((successFulCommsChannelIndex a + 1)
                mod Z.of_nat (length (successfulCommsChannels a))))
          toTry w /\
    switchToPreviousSuccessfulCommsChannel a w = (Done (e, a'), w', t) /\
    e <> Some NoHistoricalChannels /\
    successFulCommsChannelIndex a'
      = (successFulCommsChannelIndex a + 1)
          mod Z.of_nat (length (successfulCommsChannels a)) /\
    successfulCommsChannels a' = successfulCommsChannels a /\
    negotiations t = match contactObj toTry with
                     | Some ct => [(ct, GetConfig toTry)]
                     | None => []
                     end.
Proof.
  intros (Hlo & Hhi) Hne. destruct Hhi as [Hlt|[He _]]; [|congruence].
  destruct (slice_index_Some (successfulCommsChannels a)
              (successFulCommsChannelIndex a)) as (x & _ & Hx); [lia|].
  pose proof (switchToPrevious_nonempty a w x Hlo Hx) as Heq.
  destruct (validateAndSetCommsChannelObj_total
              (set_successFulCommsChannelIndex a
                 ((successFulCommsChannelIndex a + 1)
                    mod Z.of_nat (length (successfulCommsChannels a))))
              x w) as (e & a' & w' & t & Hrun & (Hh & Hi & _) & _).
  exists x, e, a', w', t. split; [exact Hx|]. split; [exact Heq|].
  split; [congruence|].
  split; [exact (validateAndSetCommsChannelObj_error _ _ _ _ _ _ _ Hrun)|].
  split; [exact Hi|]. split; [exact Hh|].
  pose proof (validateAndSetCommsChannelObj_negotiations
                (set_successFulCommsChannelIndex a
                   ((successFulCommsChannelIndex a + 1)
                      mod Z.of_nat (length (successfulCommsChannels a))))
                x w) as Hn.
  rewrite Hrun in Hn. exact Hn.
Qed.

(** [n] rotations attempt the history in order from the cursor,
    wrapping around, whatever the verdicts are. *)
Lemma rotations_attempts n : forall a w,
  cursorOk a -> successfulCommsChannels a <> [] ->
  Forall (fun c => is_Some (contactObj c)) (successfulCommsChannels a) ->
  exists an wn tn,
    rotations n a w = (Done an, wn, tn) /\
    length (negotiations tn) = n /\
    forall i, (i < n)%nat ->
      exists c ct,
        successfulCommsChannels a
          !! Z.to_nat ((successFulCommsChannelIndex a + Z.of_nat i)
                         mod Z.of_nat (length (successfulCommsChannels a)))
          = Some c /\
        contactObj c = Some ct /\
        negotiations tn !! i = Some (ct, GetConfig c).
Proof.
  induction n as [|n IH]; intros a w Hc Hne Hall.
  - exists a, w, []. split; [reflexivity|]. split; [reflexivity|]. lia.
  - destruct (switchToPrevious_step a w Hc Hne)
      as (x & e & a1 & w1 & t1 & Hx & _ & Hrun & _ & Hi & Hh & Hneg).
    assert (Hlen : 0 < Z.of_nat (length (successfulCommsChannels a))).
    { destruct (successfulCommsChannels a); [congruence|cbn; lia]. }
    assert (Hc1 : cursorOk a1).
    { unfold cursorOk. rewrite Hi, Hh.
      pose proof (Z.mod_pos_bound (successFulCommsChannelIndex a + 1)
                    _ Hlen). split; [lia|left; lia]. }
    destruct (IH a1 w1 Hc1) as (an & wn & tn & Hrunn & Hlenn & Hseq).
    { rewrite Hh. exact Hne. }
    { rewrite Hh. exact Hall. }
    destruct (proj1 (Forall_forall _ _) Hall x) as [ct Hct].
    { apply list_elem_of_lookup. eauto. }
    rewrite Hct in Hneg.
    exists an, wn, (t1 ++ tn). cbn [rotations].
    unfold mbind, eff_mbind, eff_bind. rewrite Hrun, Hrunn.
    split; [reflexivity|]. rewrite negotiations_app, Hneg.
    split; [cbn; lia|].
    intros [|i] Hlt.
    + exists x, ct. rewrite Z.add_0_r, Z.mod_small by (destruct Hc; lia).
      auto.
    + destruct (Hseq i) as (c & ct' & Hlk & Hct' & Hev); [lia|].
      exists c, ct'. rewrite Hi, Hh in Hlk.
      rewrite Zplus_mod_idemp_l in Hlk.
      replace (successFulCommsChannelIndex a + Z.of_nat (S i))
        with (successFulCommsChannelIndex a + 1 + Z.of_nat i) by lia.
      auto.
Qed.

(** C1. In every state whose cursor points into the history,
    [switchToPreviousSuccessfulCommsChannel] returns, and its error is
    [NoHistoricalChannels] exactly when the history is empty (the agent
    is then untouched and nothing is attempted); otherwise it attempts
    the channel at the cursor and moves the cursor by one modulo the
    length of the history, whatever the verdict; so [n] successive
    calls attempt the history in order from the cursor, wrapping
    around. *)
Theorem rotation_round_robin a w :
  cursorOk a ->
  (exists e a' w' t,
     switchToPreviousSuccessfulCommsChannel a w = (Done (e, a'), w', t) /\
     (e = Some NoHistoricalChannels <-> successfulCommsChannels a = []) /\
     (successfulCommsChannels a = [] -> a' = a /\ w' = w /\ t = []) /\
     (successfulCommsChannels a <> [] ->
        exists toTry,
          successfulCommsChannels a
            !! Z.to_nat (successFulCommsChannelIndex a) = Some toTry /\
          switchToPreviousSuccessfulCommsChannel a w
            = validateAndSetCommsChannelObj
                (set_successFulCommsChannelIndex a
                   ((successFulCommsChannelIndex a + 1)
                      mod Z.of_nat (length (successfulCommsChannels a))))
                toTry w /\
          successFulCommsChannelIndex a'
            = (successFulCommsChannelIndex a + 1)
                mod Z.of_nat (length (successfulCommsChannels a)) /\
          successfulCommsChannels a' = successfulCommsChannels a /\
          negotiations t = match contactObj toTry with
                           | Some ct => [(ct, GetConfig toTry)]
                           | None => []
                           end)) /\
  (forall n,
     successfulCommsChannels a <> [] ->
     Forall (fun c => is_Some (contactObj c)) (successfulCommsChannels a) ->
     exists an wn tn,
       rotations n a w = (Done an, wn, tn) /\
       length (negotiations tn) = n /\
       forall i, (i < n)%nat ->
         exists c ct,
           successfulCommsChannels a
             !! Z.to_nat ((successFulCommsChannelIndex a + Z.of_nat i)
                            mod Z.of_nat (length (successfulCommsChannels a)))
             = Some c /\
           contactObj c = Some ct /\
           negotiations tn !! i = Some (ct, GetConfig c)).
Proof.
  intros Hc. split.
  - destruct (successfulCommsChannels a) as [|c0 l0] eqn:Hh.
    + exists (Some NoHistoricalChannels), a, w, [].
      split; [apply switchToPrevious_empty, Hh|].
      split; [tauto|]. split; [auto|]. congruence.
    + destruct (switchToPrevious_step a w Hc)
        as (x & e & a' & w' & t & Hx & Heq & Hrun & He & Hi & Hhist & Hneg).
      { rewrite Hh. discriminate. }
      exists e, a', w', t. split; [exact Hrun|].
      split; [split; [tauto|discriminate]|].
      split; [discriminate|]. intros _. exists x.
      rewrite <- Hh. auto.
  - intros n Hne Hall. apply rotations_attempts; assumption.
Qed.

Lemma occurrences_absent (x : string) (l : list string) :
  x ∉ l -> filter (eq x) l = [].
Proof.
  induction l as [|y l IH]; intros Hn; [reflexivity|].
  rewrite filter_cons. destruct (decide (x = y)) as [<-|Hne].
  - destruct Hn. constructor.
  - apply IH. intros Hin. apply Hn. constructor. exact Hin.
Qed.

Lemma occurrences_NoDup (x : string) (l : list string) :
  NoDup l -> x ∈ l -> length (filter (eq x) l) = 1%nat.
Proof.
  induction 1 as [|y l Hy Hnd IH]; intros Hin; [inversion Hin|].
  rewrite filter_cons. destruct (decide (x = y)) as [<-|Hne].
  - cbn. rewrite occurrences_absent by exact Hy. reflexivity.
  - apply IH. inversion Hin; subst; [congruence|assumption].
Qed.

Lemma recordSuccesses_fixed n a :
  UpdateSuccessfulContacts a = a -> recordSuccesses n a = a.
Proof.
  intros Hfix. induction n as [|n IH]; [reflexivity|].
  cbn. rewrite Hfix. exact IH.
Qed.

Lemma UpdateSuccessfulContacts_flag_clear a :
  tryingSwitchedContact a = false -> UpdateSuccessfulContacts a = a.
Proof. intros Hf. unfold UpdateSuccessfulContacts. rewrite Hf. reflexivity. Qed.

(** The early return of lines 188-191: with the flag set and the active
    identity already recorded, nothing is written, the flag included. *)
Lemma UpdateSuccessfulContacts_known a :
  tryingSwitchedContact a = true ->
  GetIdentifier (agentComms a) ∈ historyIds a ->
  UpdateSuccessfulContacts a = a.
Proof.
  intros Hf Hin. rewrite UpdateSuccessfulContacts_run, Hf.
  destruct (decide _) as [|Hn]; [reflexivity|]. destruct Hn. exact Hin.
Qed.

Lemma UpdateSuccessfulContacts_active a :
  agentComms (UpdateSuccessfulContacts a) = agentComms a.
Proof.
  rewrite UpdateSuccessfulContacts_run.
  destruct (tryingSwitchedContact a); [|reflexivity].
  destruct (decide _); reflexivity.
Qed.

(** C3. [UpdateSuccessfulContacts] does nothing while the flag is
    clear; it keeps the identities of the history distinct, and so does
    every sequence of operations; and once a switch is in progress, any
    positive number of calls leaves the active channel's identity
    exactly once in the history. *)
Theorem recordSuccess_history_dedup a :
  (tryingSwitchedContact a = false -> UpdateSuccessfulContacts a = a) /\
  (NoDup (historyIds a) -> NoDup (historyIds (UpdateSuccessfulContacts a))) /\
  (forall ops w, agentOk a ->
     exists a' w' t,
       runOps ops a w = (Done a', w', t) /\ NoDup (historyIds a')) /\
  (tryingSwitchedContact a = true -> NoDup (historyIds a) ->
   forall n, (0 < n)%nat ->
     agentComms (recordSuccesses n a) = agentComms a /\
     length (filter (eq (GetIdentifier (agentComms a)))
                    (historyIds (recordSuccesses n a))) = 1%nat).
Proof.
  split; [apply UpdateSuccessfulContacts_flag_clear|].
  assert (Hstep : NoDup (historyIds a) ->
                  NoDup (historyIds (UpdateSuccessfulContacts a))).
  { intros Hnd. rewrite UpdateSuccessfulContacts_run.
    destruct (tryingSwitchedContact a); [|exact Hnd].
    destruct (decide _) as [|Hnin]; [exact Hnd|].
    unfold historyIds in *. cbn. rewrite fmap_app. cbn.
    apply NoDup_app. split; [exact Hnd|]. split; [|apply NoDup_singleton].
    intros x Hx Hx'. apply list_elem_of_singleton in Hx'. subst x.
    exact (Hnin Hx). }
  split; [exact Hstep|]. split.
  - intros ops w Hok.
    destruct (runOps_total ops a w Hok) as (a' & w' & t & Hrun & _ & Hnd & _).
    eauto.
  - intros Hf Hnd [|n] Hn; [lia|]. cbn [recordSuccesses].
    assert (Hin : GetIdentifier (agentComms a)
                    ∈ historyIds (UpdateSuccessfulContacts a)).
    { rewrite UpdateSuccessfulContacts_run, Hf.
      destruct (decide _) as [Hin|_]; [exact Hin|].
      unfold historyIds. cbn. rewrite fmap_app. cbn.
      apply elem_of_app. right. constructor. }
    assert (Hfix : UpdateSuccessfulContacts (UpdateSuccessfulContacts a)
                   = UpdateSuccessfulContacts a).
    { destruct (decide (GetIdentifier (agentComms a) ∈ historyIds a))
        as [Hold|Hnew].
      - rewrite (UpdateSuccessfulContacts_known a Hf Hold).
        exact (UpdateSuccessfulContacts_known a Hf Hold).
      - apply UpdateSuccessfulContacts_flag_clear.
        rewrite UpdateSuccessfulContacts_run, Hf.
        destruct (decide _) as [Hold|_]; [contradiction|reflexivity]. }
    rewrite (recordSuccesses_fixed n _ Hfix).
    split; [apply UpdateSuccessfulContacts_active|].
    apply occurrences_NoDup; [apply Hstep, Hnd|exact Hin].
Qed.

(** C5. When negotiation is rejected, [validateAndSetCommsChannelObj]
    returns the error naming the channel's transport and address, and
    the agent it returns is the agent it was given: active channel,
    profile, registry and history are untouched. The same holds for
    [ValidateAndSetCommsChannel] on the channel it looks up or builds. *)
Theorem rejected_activation_leaves_agent a c w mods c' w1 t1 :
  Validate c (GetFullProfile a) w = (Done (false, mods, c'), w1, t1) ->
  validateAndSetCommsChannelObj a c w
    = (Done (Some (RequirementsNotMet c), a), w1, t1) /\
  RequirementsNotMet c
    = errors_New ("Requirements not met for C2 channel " +:+ c2Protocol c +:+
                  " for server " +:+ address c) /\
  forall server p k,
    GetCommunicationChannel a server p k = Done (c, None) ->
    ValidateAndSetCommsChannel a server p k w
      = (Done (Some (RequirementsNotMet c), a), w1, t1).
Proof.
  intros Hv.
  assert (Hrun : validateAndSetCommsChannelObj a c w
                 = (Done (Some (RequirementsNotMet c), a), w1, t1)).
  { rewrite validateAndSetCommsChannelObj_run. rewrite Validate_run in Hv.
    destruct (contactObj c) as [ct|].
    - destruct (C2RequirementsMet ct (GetFullProfile a) (GetConfig c) w)
        as [[v m] w2].
      injection Hv as -> _ _ -> <-. reflexivity.
    - injection Hv as _ _ -> <-. reflexivity. }
  split; [exact Hrun|]. split; [reflexivity|].
  intros server p k Hget. unfold ValidateAndSetCommsChannel.
  rewrite Hget. unfold mbind, eff_mbind, eff_bind, eff_of_outcome.
  rewrite Hrun. reflexivity.
Qed.

Lemma elem_of_notifyEvents receivers c r :
  r ∈ receivers ->
  EvUpdateUpstreamComs r (GetContact c) ∈ notifyEvents receivers c /\
  EvUpdateUpstreamServer r (GetAddress c) ∈ notifyEvents receivers c.
Proof.
  intros Hr. unfold notifyEvents. split; apply list_elem_of_bind; exists r;
    (split; [|exact Hr]).
  - constructor.
  - constructor. constructor.
Qed.

(** C6. When negotiation is accepted, the call returns without error
    and, by then, the validated channel is in the registry under its
    identifier, the returned modifications (if any) have been applied
    to the profile, the validated channel is the active channel, and
    every attached receiver has been sent the channel's contact and
    address, in that order, after the negotiation. *)
Theorem accepted_activation_is_complete a c w mods c' w1 t1 :
  Validate c (GetFullProfile a) w = (Done (true, mods, c'), w1, t1) ->
  exists a',
    validateAndSetCommsChannelObj a c w
      = (Done (None, a'),
         notifyWorld (localP2pReceivers a) c' w1,
         t1 ++ notifyEvents (localP2pReceivers a) c') /\
    c' = withVerdict c true /\
    validatedCommsChannels a'
      = <[GetIdentifier c := c']> (validatedCommsChannels a) /\
    validatedCommsChannels a' !! GetIdentifier c = Some c' /\
    profile a' = match mods with
                 | Some m => modifyProfile m (profile a)
                 | None => profile a
                 end /\
    agentComms a' = c' /\
    forall r, r ∈ localP2pReceivers a ->
      EvUpdateUpstreamComs r (contactObj c)
        ∈ notifyEvents (localP2pReceivers a) c' /\
      EvUpdateUpstreamServer r (address c)
        ∈ notifyEvents (localP2pReceivers a) c'.
Proof.
  intros Hv. rewrite Validate_run in Hv.
  rewrite validateAndSetCommsChannelObj_run.
  destruct (contactObj c) as [ct|] eqn:Hct; [|discriminate].
  destruct (C2RequirementsMet ct (GetFullProfile a) (GetConfig c) w)
    as [[v m] w2].
  injection Hv as -> -> <- -> <-.
  exists (activated a (withVerdict c true) mods).
  split; [reflexivity|]. split; [reflexivity|].
  assert (Hreg : validatedCommsChannels (activated a (withVerdict c true) mods)
                 = <[GetIdentifier c := withVerdict c true]>
                     (validatedCommsChannels a)).
  { rewrite registry_activated. reflexivity. }
  split; [exact Hreg|]. split; [rewrite Hreg; apply lookup_insert_eq|].
  split; [destruct mods; reflexivity|]. split; [destruct mods; reflexivity|].
  intros r Hr. rewrite <- Hct.
  exact (elem_of_notifyEvents _ (withVerdict c true) r Hr).
Qed.

(** C7. A transport name that the registry of contacts does not know
    makes channel construction fail with [UnknownTransport]; the
    activation that asked for it then returns that error with no
    external call, the world and the agent, registry included, as they
    were. *)
Theorem unknown_transport_fails name addr key :
  CommunicationChannels !! name = None ->
  AgentCommsFactory addr name key = (None, Some (UnknownTransport name)) /\
  forall a w,
    validatedCommsChannels a !! identifierOf name addr = None ->
    GetCommunicationChannel a addr name key
      = Done (zeroChannel, Some (UnknownTransport name)) /\
    ValidateAndSetCommsChannel a addr name key w
      = (Done (Some (UnknownTransport name), a), w, []).
Proof.
  intros Hn. split.
  - unfold AgentCommsFactory, Initialize, GetContactByName. rewrite Hn.
    reflexivity.
  - intros a w Hreg. rewrite GetCommunicationChannel_run,
      ValidateAndSetCommsChannel_run, Hreg, Hn. auto.
Qed.

(** C9. [addValidatedCommsChannel] writes the registry only for a
    channel whose [validated] flag is set, and over every sequence of
    operations all channels in the registry have the flag set. *)
Theorem registry_holds_only_validated a :
  (forall c k c',
     validatedCommsChannels (addValidatedCommsChannel a c) !! k = Some c' ->
     validatedCommsChannels a !! k = Some c' \/
     (c' = c /\ validated c = true /\ k = GetIdentifier c)) /\
  (forall c, validated c = false -> addValidatedCommsChannel a c = a) /\
  (forall ops w, agentOk a ->
     exists a' w' t,
       runOps ops a w = (Done a', w', t) /\
       forall k c, validatedCommsChannels a' !! k = Some c ->
                   validated c = true).
Proof.
  split; [|split].
  - intros c k c'. unfold addValidatedCommsChannel, IsValidated.
    destruct (validated c) eqn:Hv; [|auto]. cbn.
    destruct (decide (GetIdentifier c = k)) as [<-|Hne].
    + rewrite lookup_insert_eq. intros [= <-]. auto.
    + rewrite lookup_insert_ne by exact Hne. auto.
  - intros c Hv. unfold addValidatedCommsChannel, IsValidated. rewrite Hv.
    reflexivity.
  - intros ops w Hok.
    destruct (runOps_total ops a w Hok) as (a' & w' & t & Hrun & _ & _ & Hreg).
    exists a', w', t. split; [exact Hrun|].
    intros k c Hk. exact (proj1 (Hreg k c Hk)).
Qed.

Lemma GetConfig_lookup (c : Channel) :
  GetConfig c !! "c2Name" = Some (c2Protocol c) /\
  GetConfig c !! "c2Key" = Some (c2Key c) /\
  GetConfig c !! "address" = Some (address c).
Proof. repeat split. Qed.

Lemma keyToUse_chosenKey a newKey :
  (if 0 <? Z.of_nat (String.length newKey) then newKey
   else GetKey (agentComms a)) = chosenKey a newKey.
Proof. destruct newKey; reflexivity. Qed.

Lemma SwitchC2Contact_run a name newKey w :
  SwitchC2Contact a name newKey w
  = ValidateAndSetCommsChannel a (address (agentComms a)) name
      (chosenKey a newKey) w.
Proof. unfold SwitchC2Contact. rewrite keyToUse_chosenKey. reflexivity. Qed.

(** C8, as amended. [SwitchC2Contact] asks for a channel at the active
    channel's address with the chosen key. When the identity of the new
    transport at that address is not in the registry, the channel that
    is negotiated carries exactly that address and key; when it is, the
    stored channel is negotiated with its own configuration. *)
Theorem switch_negotiates_fresh_or_stored a name newKey w :
  SwitchC2Contact a name newKey w
    = ValidateAndSetCommsChannel a (address (agentComms a)) name
        (chosenKey a newKey) w /\
  (validatedCommsChannels a !! identifierOf name (address (agentComms a))
     = None ->
   switchUsesChosenKey a name newKey w /\
   forall ct, CommunicationChannels !! name = Some ct ->
     negotiations (SwitchC2Contact a name newKey w).2
     = [(ct, GetConfig (mkAgentCommsChannel (address (agentComms a)) name
                          (chosenKey a newKey) (Some ct) false))]) /\
  (forall c,
     validatedCommsChannels a !! identifierOf name (address (agentComms a))
       = Some c ->
     negotiations (SwitchC2Contact a name newKey w).2
     = match contactObj c with
       | Some ct => [(ct, GetConfig c)]
       | None => []
       end).
Proof.
  split; [apply SwitchC2Contact_run|]. split.
  - intros Hmiss.
    assert (Hneg : forall ct, CommunicationChannels !! name = Some ct ->
              negotiations (SwitchC2Contact a name newKey w).2
              = [(ct, GetConfig (mkAgentCommsChannel (address (agentComms a))
                                   name (chosenKey a newKey) (Some ct) false))]).
    { intros ct Hct. rewrite SwitchC2Contact_run,
        ValidateAndSetCommsChannel_run, Hmiss, Hct.
      apply validateAndSetCommsChannelObj_negotiations. }
    split; [|exact Hneg].
    intros ct config Hin.
    destruct (CommunicationChannels !! name) as [ct0|] eqn:Hct.
    + rewrite (Hneg ct0 eq_refl) in Hin.
      apply list_elem_of_singleton in Hin. injection Hin as -> ->.
      split; reflexivity.
    + rewrite SwitchC2Contact_run, ValidateAndSetCommsChannel_run,
        Hmiss, Hct in Hin. inversion Hin.
  - intros c Hhit. rewrite SwitchC2Contact_run,
      ValidateAndSetCommsChannel_run, Hhit.
    apply validateAndSetCommsChannelObj_negotiations.
Qed.

(** C10. For an identity that is in the registry,
    [GetCommunicationChannel] returns the stored channel whatever key
    it is given, and a switch to that identity validates the stored
    channel: the negotiation, if the channel has a contact, carries the
    stored channel's configuration, hence its original key. *)
Theorem registry_hit_discards_key a server p c :
  validatedCommsChannels a !! identifierOf p server = Some c ->
  (forall key, GetCommunicationChannel a server p key = Done (c, None)) /\
  (server = getCurrentServerAddress a ->
   forall newKey w,
     SwitchC2Contact a p newKey w = validateAndSetCommsChannelObj a c w /\
     negotiations (SwitchC2Contact a p newKey w).2
     = match contactObj c with
       | Some ct => [(ct, GetConfig c)]
       | None => []
       end) /\
  GetConfig c !! "c2Key" = Some (c2Key c).
Proof.
  intros Hhit. split; [|split].
  - intros key. rewrite GetCommunicationChannel_run, Hhit. reflexivity.
  - intros -> newKey w.
    assert (Hrun : SwitchC2Contact a p newKey w
                   = validateAndSetCommsChannelObj a c w).
    { rewrite SwitchC2Contact_run, ValidateAndSetCommsChannel_run.
      unfold getCurrentServerAddress in Hhit. rewrite Hhit. reflexivity. }
    split; [exact Hrun|]. rewrite Hrun.
    apply validateAndSetCommsChannelObj_negotiations.
  - apply GetConfig_lookup.
Qed.

(** *** Beacons *)

(** A beacon whose outer text decodes to an object without a string
    under [instructions] makes [processBeacon] panic at the type
    assertion of line 150. *)
Lemma processBeacon_instructions_not_string data entries :
  json_decode data = Some (VMap entries) ->
  (forall s, (list_to_map entries : gmap string Val) !! "instructions"
             <> Some (VString s)) ->
  processBeacon data
  = Panic "interface conversion: interface {} is not string".
Proof.
  intros Hd Hn. unfold processBeacon, Unmarshal_map. rewrite Hd. cbn.
  destruct (list_to_map entries !! "instructions") as [v|] eqn:Hi;
    [|reflexivity].
  destruct v; try reflexivity. destruct (Hn s). reflexivity.
Qed.

(** With a string under [instructions] that decodes, a [sleep] that is
    not a number makes it panic at line 154. *)
Lemma processBeacon_sleep_not_number data entries s commands :
  json_decode data = Some (VMap entries) ->
  (list_to_map entries : gmap string Val) !! "instructions"
    = Some (VString s) ->
  json_decode s = Some commands ->
  (forall f, (list_to_map entries : gmap string Val) !! "sleep"
             <> Some (VFloat64 f)) ->
  processBeacon data
  = Panic "interface conversion: interface {} is not float64".
Proof.
  intros Hd Hi Hs Hn. unfold processBeacon, Unmarshal_map, Unmarshal_any.
  rewrite Hd. cbn. rewrite Hi. cbn. rewrite Hs.
  destruct (list_to_map entries !! "sleep") as [v|] eqn:Hsl;
    [|reflexivity].
  destruct v; try reflexivity. destruct (Hn f). reflexivity.
Qed.

(** ** Further properties of the comms file *)

Lemma activated_agentComms a c mods : agentComms (activated a c mods) = c.
Proof.
  unfold activated, addValidatedCommsChannel, modifyAgentConfiguration.
  destruct mods, (IsValidated c); reflexivity.
Qed.

Lemma activated_beaconContact a c mods :
  beaconContact (activated a c mods) = beaconContact a.
Proof.
  unfold activated, addValidatedCommsChannel, modifyAgentConfiguration.
  destruct mods, (IsValidated c); reflexivity.
Qed.

(** An attempt leaves the agent as it is or activates the validated
    copy of the channel. *)
Lemma validateAndSetCommsChannelObj_cases a c w :
  exists e a' w' t,
    validateAndSetCommsChannelObj a c w = (Done (e, a'), w', t) /\
    ((e = Some (RequirementsNotMet c) /\ a' = a) \/
     (e = None /\ is_Some (contactObj c) /\
      exists mods, a' = activated a (withVerdict c true) mods)).
Proof.
  rewrite validateAndSetCommsChannelObj_run.
  destruct (contactObj c) as [ct|] eqn:Hc.
  - destruct (C2RequirementsMet ct (GetFullProfile a) (GetConfig c) w)
      as [[[] m] w1]; do 4 eexists; (split; [reflexivity|]); eauto 6.
  - do 4 eexists. split; [reflexivity|]. auto.
Qed.

(** The channel [ValidateAndSetCommsChannel] works on. *)
Lemma ValidateAndSetCommsChannel_cases a server p k w :
  (exists e, ValidateAndSetCommsChannel a server p k w
             = (Done (Some e, a), w, []) /\ e = UnknownTransport p /\
             validatedCommsChannels a !! identifierOf p server = None /\
             CommunicationChannels !! p = None) \/
  (exists c,
     ValidateAndSetCommsChannel a server p k w
       = validateAndSetCommsChannelObj a c w /\
     (validatedCommsChannels a !! identifierOf p server = Some c \/
      (validatedCommsChannels a !! identifierOf p server = None /\
       exists ct, CommunicationChannels !! p = Some ct /\
         c = mkAgentCommsChannel server p k (Some ct) false))).
Proof.
  rewrite ValidateAndSetCommsChannel_run.
  destruct (validatedCommsChannels a !! identifierOf p server) as [c|].
  - right. exists c. auto.
  - destruct (CommunicationChannels !! p) as [ct|].
    + right. eexists. split; [reflexivity|]. right. eauto.
    + left. eauto.
Qed.

(** X1. An activation that returns no error has put the channel it
    activated in the registry under the requested identity: the active
    channel is validated, has a contact, and is what
    [GetCommunicationChannel] returns for that server and protocol from
    then on, whatever key it is given. *)
Theorem activation_registers a server p k w a' w' t :
  registryOk a ->
  ValidateAndSetCommsChannel a server p k w = (Done (None, a'), w', t) ->
  validatedCommsChannels a' !! identifierOf p server = Some (agentComms a') /\
  validated (agentComms a') = true /\
  is_Some (contactObj (agentComms a')) /\
  forall k2, GetCommunicationChannel a' server p k2
             = Done (agentComms a', None).
Proof.
  intros Hreg Hrun.
  assert (Hgoal : validatedCommsChannels a' !! identifierOf p server
                    = Some (agentComms a') /\
                  validated (agentComms a') = true /\
                  is_Some (contactObj (agentComms a'))).
  { destruct (ValidateAndSetCommsChannel_cases a server p k w)
      as [(e & He & _)|(c & Heq & Hc)]; [congruence|].
    rewrite Heq in Hrun.
    destruct (validateAndSetCommsChannelObj_cases a c w)
      as (e & a1 & w1 & t1 & Hrun1 & Hcase).
    rewrite Hrun1 in Hrun. injection Hrun as -> -> -> ->.
    destruct Hcase as [[He _]|(_ & Hct & mods & ->)]; [discriminate|].
    rewrite activated_agentComms, registry_activated. cbn.
    assert (Hid : GetIdentifier c = identifierOf p server).
    { destruct Hc as [Hhit|(_ & ct & _ & ->)]; [|reflexivity].
      symmetry. exact (proj2 (proj2 (Hreg _ _ Hhit))). }
    change (GetIdentifier (withVerdict c true)) with (GetIdentifier c).
    rewrite Hid, lookup_insert_eq. auto. }
  destruct Hgoal as (Hlk & Hv & Hct). repeat split; try assumption.
  intros k2. rewrite GetCommunicationChannel_run, Hlk. reflexivity.
Qed.

(** X2. The three ways to ask for an activation always return, and
    whatever the verdict they leave the history, the rotation cursor,
    the switching flag, the receivers and the beacon contact as they
    were. *)
Theorem activations_keep_bookkeeping a w :
  (forall server p k,
     exists e a' w' t,
       ValidateAndSetCommsChannel a server p k w = (Done (e, a'), w', t) /\
       sameHistory a a' /\ beaconContact a' = beaconContact a) /\
  (forall name key,
     exists e a' w' t,
       SwitchC2Contact a name key w = (Done (e, a'), w', t) /\
       sameHistory a a' /\ beaconContact a' = beaconContact a) /\
  (forall server c2Config,
     exists e a' w' t,
       setInitialCommsChannel a server c2Config w = (Done (e, a'), w', t) /\
       sameHistory a a' /\ beaconContact a' = beaconContact a).
Proof.
  assert (Hv : forall server p k,
     exists e a' w' t,
       ValidateAndSetCommsChannel a server p k w = (Done (e, a'), w', t) /\
       sameHistory a a' /\ beaconContact a' = beaconContact a).
  { intros server p k.
    destruct (ValidateAndSetCommsChannel_cases a server p k w)
      as [(e & He & _)|(c & Heq & _)].
    - do 4 eexists. split; [exact He|]. split; [apply sameHistory_refl|].
      reflexivity.
    - rewrite Heq.
      destruct (validateAndSetCommsChannelObj_cases a c w)
        as (e & a1 & w1 & t1 & Hrun1 & Hcase).
      exists e, a1, w1, t1. split; [exact Hrun1|].
      destruct Hcase as [[_ ->]|(_ & _ & mods & ->)].
      + split; [apply sameHistory_refl|reflexivity].
      + split; [apply sameHistory_activated|apply activated_beaconContact]. }
  split; [exact Hv|]. split.
  - intros name key. unfold SwitchC2Contact. apply Hv.
  - intros server c2Config. unfold setInitialCommsChannel.
    destruct (c2Config !! "c2Name"); [apply Hv|].
    do 4 eexists. split; [reflexivity|].
    split; [apply sameHistory_refl|reflexivity].
Qed.

Lemma storesGrow_refl a : storesGrow a a.
Proof. split; reflexivity. Qed.

Lemma storesGrow_trans a b c : storesGrow a b -> storesGrow b c -> storesGrow a c.
Proof. intros [H1 H2] [H3 H4]. split; etrans; eassumption. Qed.

Lemma storesGrow_activated a c mods : storesGrow a (activated a c mods).
Proof.
  split.
  - rewrite registry_activated. destruct (validated c); [|reflexivity].
    rewrite dom_insert. apply union_subseteq_r.
  - rewrite (proj1 (sameHistory_activated a c mods)). reflexivity.
Qed.

Lemma ValidateAndSetCommsChannel_grows a server p k w r a' w' t :
  ValidateAndSetCommsChannel a server p k w = (Done (r, a'), w', t) ->
  storesGrow a a'.
Proof.
  intros Hrun.
  destruct (ValidateAndSetCommsChannel_cases a server p k w)
    as [(e & He & _)|(c & Heq & _)].
  - rewrite He in Hrun. injection Hrun as _ <- _ _. apply storesGrow_refl.
  - rewrite Heq in Hrun.
    destruct (validateAndSetCommsChannelObj_cases a c w)
      as (e & a1 & w1 & t1 & Hrun1 & Hcase).
    rewrite Hrun1 in Hrun. injection Hrun as _ <- _ _.
    destruct Hcase as [[_ ->]|(_ & _ & mods & ->)];
      [apply storesGrow_refl|apply storesGrow_activated].
Qed.

Lemma switchToPrevious_grows a w r a' w' t :
  switchToPreviousSuccessfulCommsChannel a w = (Done (r, a'), w', t) ->
  storesGrow a a'.
Proof.
  unfold switchToPreviousSuccessfulCommsChannel.
  destruct (_ =? 0).
  - intros [= _ <- _ _]. apply storesGrow_refl.
  - destruct (slice_index _ _) as [toTry|]; [|discriminate].
    intros Hrun.
    destruct (validateAndSetCommsChannelObj_cases
                (set_successFulCommsChannelIndex a
                   (Z.rem (successFulCommsChannelIndex a + 1)
                      (Z.of_nat (length (successfulCommsChannels a)))))
                toTry w) as (e & a1 & w1 & t1 & Hrun1 & Hcase).
    rewrite Hrun1 in Hrun. injection Hrun as _ <- _ _.
    destruct Hcase as [[_ ->]|(_ & _ & mods & ->)].
    + split; reflexivity.
    + exact (storesGrow_activated
               (set_successFulCommsChannelIndex a _) _ mods).
Qed.

Lemma UpdateSuccessfulContacts_grows a :
  storesGrow a (UpdateSuccessfulContacts a).
Proof.
  rewrite UpdateSuccessfulContacts_run.
  destruct (tryingSwitchedContact a); [|apply storesGrow_refl].
  destruct (decide _); [apply storesGrow_refl|].
  split; [reflexivity|]. cbn. apply prefix_app_r. reflexivity.
Qed.

Lemma runOp_grows o a w a' w' t :
  runOp o a w = (Done a', w', t) -> storesGrow a a'.
Proof.
  destruct o as [srv cfg|srv p k|n k| | |b]; cbn [runOp]; eff_unfold.
  - unfold setInitialCommsChannel.
    destruct (cfg !! "c2Name") as [p|].
    + destruct (ValidateAndSetCommsChannel a srv p _ w)
        as [[[[e a1]|why] w1] t1] eqn:Hrun; [|discriminate].
      intros [= <- _ _]. exact (ValidateAndSetCommsChannel_grows _ _ _ _ _ _ _ _ _ Hrun).
    + eff_unfold. intros [= <- _ _]. apply storesGrow_refl.
  - destruct (ValidateAndSetCommsChannel a srv p k w)
      as [[[[e a1]|why] w1] t1] eqn:Hrun; [|discriminate].
    intros [= <- _ _]. exact (ValidateAndSetCommsChannel_grows _ _ _ _ _ _ _ _ _ Hrun).
  - unfold SwitchC2Contact.
    destruct (ValidateAndSetCommsChannel a _ n _ w)
      as [[[[e a1]|why] w1] t1] eqn:Hrun; [|discriminate].
    intros [= <- _ _]. exact (ValidateAndSetCommsChannel_grows _ _ _ _ _ _ _ _ _ Hrun).
  - destruct (switchToPreviousSuccessfulCommsChannel a w)
      as [[[[e a1]|why] w1] t1] eqn:Hrun; [|discriminate].
    intros [= <- _ _]. exact (switchToPrevious_grows _ _ _ _ _ _ Hrun).
  - intros [= <- _ _]. apply UpdateSuccessfulContacts_grows.
  - intros [= <- _ _]. split; reflexivity.
Qed.

(** X3. Registry and history are append-only: over every sequence of
    operations that returns, no key of the registry is lost and the
    earlier history is a prefix of the later one. *)
Theorem stores_are_append_only ops : forall a w a' w' t,
  runOps ops a w = (Done a', w', t) -> storesGrow a a'.
Proof.
  induction ops as [|o ops IH]; intros a w a' w' t; cbn [runOps].
  - eff_unfold. intros [= <- _ _]. apply storesGrow_refl.
  - unfold mbind, eff_mbind, eff_bind.
    destruct (runOp o a w) as [[[a1|why] w1] t1] eqn:Hop; [|discriminate].
    destruct (runOps ops a1 w1) as [[r2 w2] t2] eqn:Hops.
    intros [= -> _ _].
    exact (storesGrow_trans _ _ _ (runOp_grows _ _ _ _ _ _ Hop)
             (IH _ _ _ _ _ Hops)).
Qed.

(** X4. Recording a success twice is recording it once. *)
Theorem UpdateSuccessfulContacts_idempotent a :
  UpdateSuccessfulContacts (UpdateSuccessfulContacts a)
  = UpdateSuccessfulContacts a.
Proof.
  destruct (tryingSwitchedContact a) eqn:Hf.
  - destruct (decide (GetIdentifier (agentComms a) ∈ historyIds a))
      as [Hold|Hnew].
    + rewrite (UpdateSuccessfulContacts_known a Hf Hold).
      exact (UpdateSuccessfulContacts_known a Hf Hold).
    + apply UpdateSuccessfulContacts_flag_clear.
      rewrite UpdateSuccessfulContacts_run, Hf.
      destruct (decide _) as [Hold|_]; [contradiction|reflexivity].
  - rewrite (UpdateSuccessfulContacts_flag_clear a Hf).
    exact (UpdateSuccessfulContacts_flag_clear a Hf).
Qed.

(** X5. After [n] rotations over a non-empty history the cursor has
    moved by [n] modulo the length of the history, and the history is
    the same; a whole number of turns brings the cursor back. *)
Theorem rotations_move_cursor n : forall a w,
  cursorOk a -> successfulCommsChannels a <> [] ->
  exists an wn tn,
    rotations n a w = (Done an, wn, tn) /\
    successfulCommsChannels an = successfulCommsChannels a /\
    successFulCommsChannelIndex an
      = (successFulCommsChannelIndex a + Z.of_nat n)
          mod Z.of_nat (length (successfulCommsChannels a)) /\
    ((exists turns, n = (turns * length (successfulCommsChannels a))%nat) ->
     successFulCommsChannelIndex an = successFulCommsChannelIndex a).
Proof.
  assert (Hmain : forall n a w,
    cursorOk a -> successfulCommsChannels a <> [] ->
    exists an wn tn,
      rotations n a w = (Done an, wn, tn) /\
      successfulCommsChannels an = successfulCommsChannels a /\
      successFulCommsChannelIndex an
        = (successFulCommsChannelIndex a + Z.of_nat n)
            mod Z.of_nat (length (successfulCommsChannels a))).
  { clear n. induction n as [|n IH]; intros a w Hc Hne.
    - exists a, w, []. split; [reflexivity|]. split; [reflexivity|].
      rewrite Z.add_0_r. symmetry. apply Z.mod_small.
      destruct Hc as [Hlo [Hlt|[He _]]]; [lia|congruence].
    - destruct (switchToPrevious_step a w Hc Hne)
        as (x & e & a1 & w1 & t1 & _ & _ & Hrun & _ & Hi & Hh & _).
      assert (Hlen : 0 < Z.of_nat (length (successfulCommsChannels a))).
      { destruct (successfulCommsChannels a); [congruence|cbn; lia]. }
      assert (Hc1 : cursorOk a1).
      { unfold cursorOk. rewrite Hi, Hh.
        pose proof (Z.mod_pos_bound (successFulCommsChannelIndex a + 1)
                      _ Hlen). split; [lia|left; lia]. }
      destruct (IH a1 w1 Hc1) as (an & wn & tn & Hrunn & Hhn & Hin).
      { rewrite Hh. exact Hne. }
      exists an, wn, (t1 ++ tn). cbn [rotations].
      unfold mbind, eff_mbind, eff_bind. rewrite Hrun, Hrunn.
      split; [reflexivity|]. split; [congruence|].
      rewrite Hin, Hi, Hh, Zplus_mod_idemp_l. f_equal. lia. }
  intros a w Hc Hne.
  destruct (Hmain n a w Hc Hne) as (an & wn & tn & Hrun & Hh & Hi).
  exists an, wn, tn. repeat split; try assumption.
  intros [turns ->]. rewrite Hi.
  rewrite Nat2Z.inj_mul, Z.mod_add.
  - apply Z.mod_small. destruct Hc as [Hlo [Hlt|[He _]]]; [lia|congruence].
  - destruct (successfulCommsChannels a); [congruence|cbn; lia].
Qed.

(** X6. What one rotation does to the agent. If the negotiation with
    the channel at the cursor is rejected, only the cursor has moved
    and the error names that channel; if it is accepted, the validated
    copy of that channel is the active channel and is in the registry
    under its identifier. *)
Theorem rotation_outcome a w toTry ct valid mods w1 :
  0 <= successFulCommsChannelIndex a ->
  successfulCommsChannels a !! Z.to_nat (successFulCommsChannelIndex a)
    = Some toTry ->
  contactObj toTry = Some ct ->
  C2RequirementsMet ct (GetFullProfile a) (GetConfig toTry) w
    = ((valid, mods), w1) ->
  let next := (successFulCommsChannelIndex a + 1)
                mod Z.of_nat (length (successfulCommsChannels a)) in
  exists e a' w' t,
    switchToPreviousSuccessfulCommsChannel a w = (Done (e, a'), w', t) /\
    successFulCommsChannelIndex a' = next /\
    if valid then
      e = None /\ agentComms a' = withVerdict toTry true /\
      validatedCommsChannels a' !! GetIdentifier toTry
        = Some (withVerdict toTry true)
    else
      e = Some (RequirementsNotMet toTry) /\
      a' = set_successFulCommsChannelIndex a next /\ w' = w1.
Proof.
  intros Hlo Hx Hct Hneg next.
  rewrite (switchToPrevious_nonempty a w toTry Hlo Hx).
  rewrite validateAndSetCommsChannelObj_run, Hct.
  change (GetFullProfile (set_successFulCommsChannelIndex a _))
    with (GetFullProfile a).
  rewrite Hneg. destruct valid.
  - do 4 eexists. split; [reflexivity|].
    split; [rewrite (proj1 (proj2 (sameHistory_activated _ _ _)));
            reflexivity|].
    split; [reflexivity|]. split; [apply activated_agentComms|].
    rewrite registry_activated. cbn. apply lookup_insert_eq.
  - do 4 eexists. split; [reflexivity|]. split; [reflexivity|]. auto.
Qed.

Lemma identifierOf_nil s : identifierOf "" s = String dash s.
Proof. reflexivity. Qed.

Lemma identifierOf_cons c p s :
  identifierOf (String c p) s = String c (identifierOf p s).
Proof. reflexivity. Qed.

Lemma noDash_cons c p :
  noDash (String c p) = true -> c <> dash /\ noDash p = true.
Proof.
  cbn. intros H. apply andb_true_iff in H. destruct H as [Hc Hp].
  split; [|exact Hp]. intros ->. rewrite Ascii.eqb_refl in Hc. discriminate.
Qed.

Lemma identifierOf_shift p s t :
  identifierOf (p +:+ "-" +:+ s) t = identifierOf p (s +:+ "-" +:+ t).
Proof.
  induction p as [|c p IH]; [reflexivity|].
  change (identifierOf (String c p +:+ "-" +:+ s) t)
    with (String c (identifierOf (p +:+ "-" +:+ s) t)).
  rewrite IH. reflexivity.
Qed.

Lemma identifierOf_inj p :
  forall s p' s',
    noDash p = true -> noDash p' = true ->
    identifierOf p s = identifierOf p' s' -> p = p' /\ s = s'.
Proof.
  induction p as [|c p IH]; intros s [|c' p'] s' Hp Hp' Heq.
  - rewrite !identifierOf_nil in Heq. injection Heq as ->. auto.
  - rewrite identifierOf_nil, identifierOf_cons in Heq.
    destruct (noDash_cons _ _ Hp') as [Hc' _]. injection Heq as Hc _.
    congruence.
  - rewrite identifierOf_nil, identifierOf_cons in Heq.
    destruct (noDash_cons _ _ Hp) as [Hc _]. injection Heq as Hc' _.
    congruence.
  - rewrite !identifierOf_cons in Heq. injection Heq as -> Heq.
    destruct (noDash_cons _ _ Hp) as [_ Hp1].
    destruct (noDash_cons _ _ Hp') as [_ Hp1'].
    destruct (IH s p' s' Hp1 Hp1' Heq) as [-> ->]. auto.
Qed.

(** X7. The identifier [protocol-address] determines protocol and
    address when the protocol names have no ['-']; without that it does
    not: a ['-'] can be read as part of the protocol or of the
    address. *)
Theorem identifier_determines_channel :
  (forall p s p' s',
     noDash p = true -> noDash p' = true ->
     identifierOf p s = identifierOf p' s' -> p = p' /\ s = s') /\
  (forall p s t,
     identifierOf (p +:+ "-" +:+ s) t = identifierOf p (s +:+ "-" +:+ t)).
Proof.
  split.
  - intros p s p' s' Hp Hp' Heq.
    exact (identifierOf_inj p s p' s' Hp Hp' Heq).
  - intros p s t. apply identifierOf_shift.
Qed.

(** X8. With a well-formed registry and protocol names without ['-'],
    the channel that [GetCommunicationChannel] returns without error is
    bound to the server and protocol that were asked for. Without the
    condition on names it need not be: a stored channel is returned for
    every pair that spells its identifier. *)
Theorem GetCommunicationChannel_bound a :
  (forall server p key c,
     registryOk a ->
     noDash p = true ->
     (forall k c', validatedCommsChannels a !! k = Some c' ->
                   noDash (c2Protocol c') = true) ->
     GetCommunicationChannel a server p key = Done (c, None) ->
     c2Protocol c = p /\ address c = server) /\
  (forall p s t key c,
     validatedCommsChannels a !! identifierOf p (s +:+ "-" +:+ t) = Some c ->
     GetCommunicationChannel a t (p +:+ "-" +:+ s) key = Done (c, None)).
Proof.
  split.
  - intros server p key c Hreg Hp Hnames.
    rewrite GetCommunicationChannel_run.
    destruct (validatedCommsChannels a !! identifierOf p server)
      as [c0|] eqn:Hlk.
    + intros [= <-]. destruct (Hreg _ _ Hlk) as (_ & _ & Hid).
      destruct (identifierOf_inj p server
                  (c2Protocol c0) (address c0) Hp (Hnames _ _ Hlk) Hid)
        as [-> ->]. auto.
    + destruct (CommunicationChannels !! p); [|discriminate].
      intros [= <-]. auto.
  - intros p s t key c Hlk.
    rewrite GetCommunicationChannel_run, identifierOf_shift, Hlk. reflexivity.
Qed.

(** X9. [setInitialCommsChannel] refuses a configuration without
    [c2Name], touching nothing; with one, for an identity new to the
    registry whose contact accepts, the active channel ends up bound to
    the given server, the configured protocol and the configured key,
    the empty key when the configuration has none. *)
Theorem setInitialCommsChannel_outcome a server c2Config w :
  (c2Config !! "c2Name" = None ->
   setInitialCommsChannel a server c2Config w
   = (Done (Some (errors_New
        "C2 config does not contain c2 protocol. Missing key: c2Name"), a),
      w, [])) /\
  (forall p ct mods w1,
     c2Config !! "c2Name" = Some p ->
     validatedCommsChannels a !! identifierOf p server = None ->
     CommunicationChannels !! p = Some ct ->
     C2RequirementsMet ct (GetFullProfile a)
       (GetConfig (mkAgentCommsChannel server p
                     (default "" (c2Config !! "c2Key")) (Some ct) false)) w
       = ((true, mods), w1) ->
     exists a' w' t,
       setInitialCommsChannel a server c2Config w = (Done (None, a'), w', t) /\
       agentComms a'
       = mkAgentCommsChannel server p (default "" (c2Config !! "c2Key"))
           (Some ct) true).
Proof.
  split.
  - intros Hn. unfold setInitialCommsChannel. rewrite Hn. reflexivity.
  - intros p ct mods w1 Hp Hmiss Hct Hneg. unfold setInitialCommsChannel.
    rewrite Hp.
    replace (match c2Config !! "c2Key" with Some k => k | None => "" end)
      with (default "" (c2Config !! "c2Key"))
      by (destruct (c2Config !! "c2Key"); reflexivity).
    rewrite ValidateAndSetCommsChannel_run, Hmiss, Hct,
      validateAndSetCommsChannelObj_run. cbn [contactObj]. rewrite Hneg.
    do 3 eexists. split; [reflexivity|]. apply activated_agentComms.
Qed.

(** ** Further properties of agent.go *)

(** X10. The trimmed profile is the full profile cut down to the keys
    [paw], [server], [platform] and [host]: it has exactly these keys
    and agrees with the full profile on them. *)
Theorem trimmed_profile_within_full a :
  GetTrimmedProfile a ⊆ GetFullProfile a /\
  dom (GetTrimmedProfile a) = {[ "paw"; "server"; "platform"; "host" ]}.
Proof.
  split.
  - apply map_subseteq_spec. intros k v. unfold GetTrimmedProfile. cbn.
    intros H.
    repeat (apply lookup_insert_Some in H;
            destruct H as [[<- <-]|[_ H]]; [reflexivity|]).
    rewrite lookup_empty in H. discriminate.
  - unfold GetTrimmedProfile. cbn. rewrite !dom_insert_L, dom_empty_L.
    set_solver.
Qed.

(** X11. A well-formed beacon comes back alive: the outer object with
    [sleep] and [watchdog] turned into integers and [instructions]
    replaced by what its text decodes to, every other entry as it
    was. *)
Theorem processBeacon_alive data beacon commands sleep watchdog :
  wellFormedBeacon data beacon commands sleep watchdog ->
  processBeacon data
  = Done (Some (<["instructions" := commands]>
                  (<["watchdog" := VInt (float64_to_int watchdog)]>
                     (<["sleep" := VInt (float64_to_int sleep)]> beacon)))) /\
  forall k r, processBeacon data = Done (Some r) ->
    k <> "instructions" -> k <> "sleep" -> k <> "watchdog" ->
    r !! k = beacon !! k.
Proof.
  intros (entries & s & Hd & -> & Hi & Hs & Hsl & Hw).
  assert (Hrun : processBeacon data
    = Done (Some (<["instructions" := commands]>
                    (<["watchdog" := VInt (float64_to_int watchdog)]>
                       (<["sleep" := VInt (float64_to_int sleep)]>
                          (list_to_map entries)))))).
  { unfold processBeacon, Unmarshal_map, Unmarshal_any. rewrite Hd. cbn.
    rewrite Hi. cbn. rewrite Hs, Hsl. cbn.
    rewrite lookup_insert_ne by discriminate. rewrite Hw. reflexivity. }
  split; [exact Hrun|].
  intros k r Hr Hk1 Hk2 Hk3. rewrite Hrun in Hr. injection Hr as <-.
  rewrite !lookup_insert_ne by congruence. reflexivity.
Qed.

(** X12. When [processBeacon] returns and when it panics. It returns
    the nil map for a text that is not JSON or is JSON other than an
    object or null; for an object it returns only if [instructions] is
    a string and either that string is not JSON (the outer object is
    then returned as decoded) or [sleep] and [watchdog] are both
    numbers; in every other case, null included, it panics. *)
Theorem processBeacon_returns_iff data :
  match json_decode data with
  | None => processBeacon data = Done None
  | Some VNil => exists why, processBeacon data = Panic why
  | Some (VMap entries) =>
      let beacon : gmap string Val := list_to_map entries in
      ((exists r, processBeacon data = Done r) <->
       exists s, beacon !! "instructions" = Some (VString s) /\
         (json_decode s = None \/
          ((exists f, beacon !! "sleep" = Some (VFloat64 f)) /\
           (exists f, beacon !! "watchdog" = Some (VFloat64 f))))) /\
      (forall s, beacon !! "instructions" = Some (VString s) ->
                 json_decode s = None ->
                 processBeacon data = Done (Some beacon))
  | Some _ => processBeacon data = Done None
  end.
Proof.
  unfold processBeacon, Unmarshal_map, Unmarshal_any.
  destruct (json_decode data) as [[| | | | | | |entries]|] eqn:Hd;
    try reflexivity.
  - eexists. reflexivity.
  - cbn. split.
    + destruct (list_to_map entries !! "instructions") as [v|] eqn:Hi.
      2:{ cbn. split; [intros [r Hr]; discriminate|].
          intros (s & Hs & _). discriminate. }
      destruct v; cbn;
        try (split; [intros [r Hr]; discriminate
                    |intros (sx & Hsx & _); discriminate]).
      destruct (json_decode s) as [commands|] eqn:Hs.
      2:{ split; [|eauto]. intros _. exists s. split; [reflexivity|].
          left. exact Hs. }
      assert (Hinj : forall s0, Some (VString s : Val) = Some (VString s0) ->
                                json_decode s0 = Some commands).
      { intros s0 [= <-]. exact Hs. }
      destruct (list_to_map entries !! "sleep") as [v1|] eqn:Hsl.
      2:{ cbn. split; [intros [r Hr]; discriminate|].
          intros (sx & Hsx & [Hn|[[fx Hf] _]]);
            [rewrite (Hinj _ Hsx) in Hn|]; discriminate. }
      destruct v1; cbn;
        try (split; [intros [r Hr]; discriminate
                    |intros (sx & Hsx & [Hn|[[fx Hf] _]]);
                       [rewrite (Hinj _ Hsx) in Hn|]; discriminate]).
      rewrite lookup_insert_ne by discriminate.
      destruct (list_to_map entries !! "watchdog") as [v2|] eqn:Hw.
      2:{ cbn. split; [intros [r Hr]; discriminate|].
          intros (sx & Hsx & [Hn|[_ [fx Hf]]]);
            [rewrite (Hinj _ Hsx) in Hn|]; discriminate. }
      destruct v2; cbn;
        try (split; [intros [r Hr]; discriminate
                    |intros (sx & Hsx & [Hn|[_ [fx Hf]]]);
                       [rewrite (Hinj _ Hsx) in Hn|]; discriminate]).
      split; [|eauto]. intros _. exists s. split; [reflexivity|].
      right. split; eexists; reflexivity.
    + intros s Hi Hs. rewrite Hi. cbn. rewrite Hs. reflexivity.
Qed.

Lemma processBeacon_not_object data :
  (forall v, json_decode data = Some v ->
             v <> VNil /\ forall entries, v <> VMap entries) ->
  processBeacon data = Done None.
Proof.
  intros Hd. unfold processBeacon, Unmarshal_map.
  destruct (json_decode data) as [[| | | | | | |entries]|];
    try reflexivity.
  - destruct (Hd _ eq_refl) as [Hnil _]. congruence.
  - destruct (Hd _ eq_refl) as [_ Hmap]. destruct (Hmap entries eq_refl).
Qed.

(** X13. With a beacon contact, [Beacon] makes one call, the beacon
    request with the full profile, and gives the nil map whenever the
    contact gives nothing or gives a text that is not a JSON object or
    null; without a beacon contact it panics before any call. *)
Theorem Beacon_dead a w :
  (beaconContact a = None ->
   exists why, Beacon a w = (Panic why, w, [])) /\
  (forall c resp w1,
     beaconContact a = Some c ->
     GetBeaconBytes c (GetFullProfile a) w = (resp, w1) ->
     (Beacon a w).2 = [EvGetBeaconBytes c (GetFullProfile a)] /\
     (Beacon a w).1.2 = w1 /\
     ((resp = None \/
       exists data, resp = Some data /\
         forall v, json_decode data = Some v ->
                   v <> VNil /\ forall entries, v <> VMap entries) ->
      (Beacon a w).1.1 = Done None)).
Proof.
  split.
  - intros Hn. unfold Beacon. rewrite Hn. eexists. reflexivity.
  - intros c resp w1 Hc Hget. unfold Beacon. rewrite Hc. eff_unfold.
    rewrite Hget. destruct resp as [data|]; cbn.
    + split; [reflexivity|]. split; [reflexivity|].
      intros [Hn|(d & [= <-] & Hd)]; [discriminate|].
      exact (processBeacon_not_object data Hd).
    + auto.
Qed.

Lemma requirementsMet_run coms p c2Config w :
  requirementsMet coms p c2Config w
  = (Done (C2RequirementsMet coms p c2Config w).1.1,
     (C2RequirementsMet coms p c2Config w).2,
     [EvC2RequirementsMet coms p c2Config]).
Proof.
  unfold requirementsMet. eff_unfold.
  destruct (C2RequirementsMet coms p c2Config w) as [[met m] w1]. reflexivity.
Qed.

Lemma SetDefaultCommunicationChannel_run a c2Config w :
  SetDefaultCommunicationChannel a c2Config w =
  match CommunicationChannels !! "HTTP" with
  | Some coms =>
      let r := C2RequirementsMet coms (GetFullProfile (base a)) c2Config w in
      (Done (if r.1.1 then (None, setContacts a coms)
             else (Some (errors_New
                     "Default HTTP C2 channel requirements not met."), a)),
       r.2, [EvC2RequirementsMet coms (GetFullProfile (base a)) c2Config])
  | None =>
      (Done (Some (errors_New "Default HTTP C2 channel not available."), a),
       w, [])
  end.
Proof.
  unfold SetDefaultCommunicationChannel.
  destruct (CommunicationChannels !! "HTTP") as [coms|]; [|reflexivity].
  unfold mbind, eff_mbind, eff_bind. rewrite requirementsMet_run.
  destruct (C2RequirementsMet coms (GetFullProfile (base a)) c2Config w)
    as [[[] m] w1]; reflexivity.
Qed.

Lemma SetDefaultCommunicationChannel_result a c2Config w :
  exists e a' w' t,
    SetDefaultCommunicationChannel a c2Config w = (Done (e, a'), w', t) /\
    (length t <= 1)%nat /\
    (forall ev, ev ∈ t ->
       exists c, selectable c2Config c /\
         ev = EvC2RequirementsMet c (GetFullProfile (base a)) c2Config) /\
    match e with
    | Some _ => a' = a
    | None =>
        exists c mods,
          selectable c2Config c /\
          a' = setContacts a c /\
          C2RequirementsMet c (GetFullProfile (base a)) c2Config w
            = ((true, mods), w') /\
          t = [EvC2RequirementsMet c (GetFullProfile (base a)) c2Config]
    end.
Proof.
  rewrite SetDefaultCommunicationChannel_run.
  destruct (CommunicationChannels !! "HTTP") as [coms|] eqn:Hh.
  - destruct (C2RequirementsMet coms (GetFullProfile (base a)) c2Config w)
      as [[[] m] w1] eqn:Hneg; cbn.
    + do 4 eexists. split; [reflexivity|]. split; [cbn; lia|]. split.
      * intros ev Hev. apply list_elem_of_singleton in Hev. subst ev.
        exists coms. split; [left; exact Hh|reflexivity].
      * exists coms, m. split; [left; exact Hh|]. auto.
    + do 4 eexists. split; [reflexivity|]. split; [cbn; lia|]. split.
      * intros ev Hev. apply list_elem_of_singleton in Hev. subst ev.
        exists coms. split; [left; exact Hh|reflexivity].
      * reflexivity.
  - do 4 eexists. split; [reflexivity|]. split; [cbn; lia|]. split.
    + intros ev Hev. inversion Hev.
    + reflexivity.
Qed.

Lemma selectionResult_default a c2Config w e a' w' t :
  SetDefaultCommunicationChannel a c2Config w = (Done (e, a'), w', t) ->
  selectionResult a c2Config e a' w' t.
Proof.
  intros Hrun.
  destruct (SetDefaultCommunicationChannel_result a c2Config w)
    as (e0 & a0 & w0 & t0 & Hrun0 & Hlen & Hev & Hres).
  rewrite Hrun0 in Hrun. injection Hrun as <- <- <- <-.
  split; [lia|]. split; [exact Hev|].
  destruct e0; [exact Hres|].
  destruct Hres as (c & mods & Hsel & Ha & Hneg & ->).
  exists c, w, mods. auto.
Qed.

(** The selection always returns, and with a result of that kind. *)
Lemma SetCommunicationChannels_cases a c2Config w :
  exists e a' w' t,
    SetCommunicationChannels a c2Config w = (Done (e, a'), w', t) /\
    selectionResult a c2Config e a' w' t /\
    (CommunicationChannels = ∅ ->
     e = Some (errors_New "No possible communication channels found.") /\
     w' = w /\ t = []).
Proof.
  unfold SetCommunicationChannels.
  destruct (Z.ltb_spec 0 (Z.of_nat (size CommunicationChannels))) as [Hpos|Hz].
  - assert (Hne : CommunicationChannels <> ∅).
    { intros He. rewrite He, map_size_empty in Hpos. lia. }
    assert (Hdef : exists e a' w' t,
              SetDefaultCommunicationChannel a c2Config w
                = (Done (e, a'), w', t) /\
              selectionResult a c2Config e a' w' t /\
              (CommunicationChannels = ∅ ->
               e = Some (errors_New
                     "No possible communication channels found.") /\
               w' = w /\ t = [])).
    { destruct (SetDefaultCommunicationChannel_result a c2Config w)
        as (e & a' & w' & t & Hrun & _).
      exists e, a', w', t. split; [exact Hrun|].
      split; [exact (selectionResult_default _ _ _ _ _ _ _ Hrun)|].
      intros He. contradiction. }
    destruct (c2Config !! "c2Name") as [name|] eqn:Hname; [|exact Hdef].
    destruct (CommunicationChannels !! name) as [req|] eqn:Hreq;
      [|exact Hdef].
    unfold mbind, eff_mbind, eff_bind. rewrite requirementsMet_run.
    destruct (C2RequirementsMet req (GetFullProfile (base a)) c2Config w)
      as [[[] m] w1] eqn:Hneg; cbn.
    + do 4 eexists. split; [reflexivity|]. split; [|intros He; contradiction].
      split; [cbn; lia|]. split.
      * intros ev Hev. apply list_elem_of_singleton in Hev. subst ev.
        exists req. split; [right; eauto|reflexivity].
      * exists req, w, m. split; [right; eauto|]. auto.
    + destruct (SetDefaultCommunicationChannel_result a c2Config w1)
        as (e & a' & w' & t & Hrun & Hlen & Hev & Hres).
      rewrite Hrun.
      exists e, a', w',
        (EvC2RequirementsMet req (GetFullProfile (base a)) c2Config :: t).
      split; [reflexivity|].
      split; [|intros He; contradiction].
      split; [cbn; lia|]. split.
      * intros ev Hin. apply elem_of_cons in Hin. destruct Hin as [->|Hin].
        -- exists req. split; [right; eauto|reflexivity].
        -- exact (Hev ev Hin).
      * destruct e; [exact Hres|].
        destruct Hres as (c & mods & Hsel & Ha & Hneg' & ->).
        exists c, w1, mods. auto.
  - do 4 eexists. split; [reflexivity|]. split.
    + split; [cbn; lia|]. split; [|reflexivity].
      intros ev Hev. inversion Hev.
    + auto.
Qed.

(** X14. Selecting the contacts at start up always returns. It
    negotiates at most twice, only with the contact asked for and with
    the default HTTP contact, with the configuration it was given; when
    it returns no error, beacon and heartbeat contact are one and the
    same contact, which is the one asked for or the default and whose
    negotiation, the last one made, was accepted; when it returns an
    error the agent is as it was; with no contact registered it returns
    an error without negotiating. *)
Theorem SetCommunicationChannels_sound a c2Config w :
  exists e a' w' t,
    SetCommunicationChannels a c2Config w = (Done (e, a'), w', t) /\
    selectionResult a c2Config e a' w' t /\
    (e = None ->
     exists c, beaconContact (base a') = Some c /\
               heartbeatContact a' = Some c /\
               profile (base a') = profile (base a) /\
               agentComms (base a') = agentComms (base a)) /\
    (CommunicationChannels = ∅ ->
     e = Some (errors_New "No possible communication channels found.") /\
     w' = w /\ t = []).
Proof.
  destruct (SetCommunicationChannels_cases a c2Config w)
    as (e & a' & w' & t & Hrun & Hres & Hempty).
  exists e, a', w', t. split; [exact Hrun|]. split; [exact Hres|].
  split; [|exact Hempty].
  intros ->. destruct Hres as (_ & _ & c & w0 & mods & _ & -> & _).
  exists c. repeat split.
Qed.

(** X15. [Initialize] returning no error does not by itself mean the
    agent is set up. When [user.Current] fails and [whoami] runs
    without error, it returns nil having written no field and selected
    no contact; in every other run that returns nil the profile fields
    are set from the arguments and the host (the user name from
    [user.Current], or from the output of a failed [whoami]), the paw
    is kept, and beacon and heartbeat contact are one selected contact.
    A failing [os.Hostname] is returned as the error, nothing
    written. *)
Theorem Initialize_outcomes a srv grp c2Config p2p delay w :
  (forall hostName e,
     os_Hostname facts = (hostName, Some e) ->
     Agent_Initialize a srv grp c2Config p2p delay w
     = (Done (Some e, a), InsecureSkipVerify w, [])) /\
  (forall hostName u e out,
     os_Hostname facts = (hostName, None) ->
     user_Current facts = (u, Some e) ->
     whoami_CombinedOutput facts = (out, None) ->
     Agent_Initialize a srv grp c2Config p2p delay w
     = (Done (None, a), InsecureSkipVerify w, [])) /\
  (forall a' w' t,
     Agent_Initialize a srv grp c2Config p2p delay w
       = (Done (None, a'), w', t) ->
     (a' = a /\ t = [] /\
      exists u e out, user_Current facts = (u, Some e) /\
                      whoami_CombinedOutput facts = (out, None)) \/
     (exists c userName,
        beaconContact (base a') = Some c /\
        heartbeatContact a' = Some c /\
        selectable c2Config c /\
        profile (base a')
        = mkAgentProfile srv grp (os_Hostname facts).1 userName
            (runtime_GOARCH facts) (runtime_GOOS facts) (os_Args0 facts)
            (os_Getpid facts) (os_Getppid facts)
            (execute_AvailableExecutors facts) (privdetect_Privlevel facts)
            (filepath_Base (os_Args0 facts)) (paw (profile (base a))) /\
        enableP2pReceivers a' = p2p /\
        initialDelay a' = float64_of_int delay /\
        (user_Current facts = (Some userName, None) \/
         exists u e e', user_Current facts = (u, Some e) /\
                        whoami_CombinedOutput facts = (userName, Some e')))).
Proof.
  assert (Hset : forall userName hostName a' w' t,
    SetCommunicationChannels
      (initializeFields a userName hostName srv grp p2p delay) c2Config
      (InsecureSkipVerify w) = (Done (None, a'), w', t) ->
    exists c,
      beaconContact (base a') = Some c /\
      heartbeatContact a' = Some c /\
      selectable c2Config c /\
      profile (base a')
      = mkAgentProfile srv grp hostName userName
          (runtime_GOARCH facts) (runtime_GOOS facts) (os_Args0 facts)
          (os_Getpid facts) (os_Getppid facts)
          (execute_AvailableExecutors facts) (privdetect_Privlevel facts)
          (filepath_Base (os_Args0 facts)) (paw (profile (base a))) /\
      enableP2pReceivers a' = p2p /\
      initialDelay a' = float64_of_int delay).
  { intros userName hostName a' w' t Hrun.
    destruct (SetCommunicationChannels_cases
                (initializeFields a userName hostName srv grp p2p delay)
                c2Config (InsecureSkipVerify w))
      as (e0 & a0 & w0 & t0 & Hrun0 & Hres & _).
    rewrite Hrun0 in Hrun. injection Hrun as -> -> -> ->.
    destruct Hres as (_ & _ & c & w1 & mods & Hsel & -> & _).
    exists c. repeat split; assumption. }
  unfold Agent_Initialize. eff_unfold. unfold eff_update. cbn.
  split; [|split].
  - intros hostName e Hh. rewrite Hh. reflexivity.
  - intros hostName u e out Hh Hu Hw. rewrite Hh, Hu, Hw. reflexivity.
  - intros a' w' t.
    destruct (os_Hostname facts) as [hostName [e|]] eqn:Hh; [discriminate|].
    destruct (user_Current facts) as [u [e|]] eqn:Hu.
    + destruct (whoami_CombinedOutput facts) as [out [e'|]] eqn:Hw.
      * destruct (SetCommunicationChannels _ c2Config (InsecureSkipVerify w))
          as [[r w1] t1] eqn:Hrun.
        intros [= -> -> <-].
        destruct (Hset _ _ _ _ _ Hrun)
          as (c & Hb & Hhb & Hsel & Hp & Hp2p & Hd).
        right. exists c, out. repeat split; try assumption. right. eauto.
      * intros [= <- _ <-]. left. repeat split. eauto.
    + destruct u as [userName|]; [|discriminate].
      destruct (SetCommunicationChannels _ c2Config (InsecureSkipVerify w))
        as [[r w1] t1] eqn:Hrun.
      intros [= -> -> <-].
      destruct (Hset _ _ _ _ _ Hrun)
        as (c & Hb & Hhb & Hsel & Hp & Hp2p & Hd).
      right. exists c, userName. repeat split; try assumption. left. reflexivity.
Qed.

(** X16. An instruction whose [timeout] is not a number, or whose
    [command] or [executor] is not a string, is not run: the call
    panics with the world untouched and nothing logged. A well-formed
    one is run once and its result, under the keys [id], [output],
    [status] and [pid] with the instruction's own [id], is then sent
    once over the beacon contact with the trimmed profile; without a
    beacon contact the command has been run when the call panics. *)
Theorem RunInstruction_outcome a command payloads w :
  ((forall f, command !! "timeout" <> Some (VFloat64 f)) \/
   (forall s, command !! "command" <> Some (VString s)) \/
   (forall s, command !! "executor" <> Some (VString s)) ->
   exists why, RunInstruction a command payloads w = (Panic why, w, [])) /\
  (forall f cmd ex out st pid_ w1,
     command !! "timeout" = Some (VFloat64 f) ->
     command !! "command" = Some (VString cmd) ->
     command !! "executor" = Some (VString ex) ->
     RunCommand cmd payloads ex (float64_to_int f) w = ((out, st, pid_), w1) ->
     let result : gmap string Val :=
       <["pid" := pid_]> (<["status" := st]> (<["output" := out]>
         (<["id" := default VNil (command !! "id")]> ∅))) in
     match beaconContact a with
     | Some c =>
         RunInstruction a command payloads w
         = (Done tt, SendExecutionResults c (GetTrimmedProfile a) result w1,
            [EvRunCommand cmd payloads ex (float64_to_int f);
             EvSendExecutionResults c (GetTrimmedProfile a) result])
     | None =>
         exists why,
           RunInstruction a command payloads w
           = (Panic why, w1, [EvRunCommand cmd payloads ex (float64_to_int f)])
     end).
Proof.
  split.
  - unfold RunInstruction. eff_unfold. unfold eff_lift. cbn.
    destruct (command !! "timeout") as [[]|] eqn:Ht; cbn;
      try (intros _; eexists; reflexivity).
    destruct (command !! "command") as [[]|] eqn:Hc; cbn;
      try (intros _; eexists; reflexivity).
    destruct (command !! "executor") as [[]|] eqn:He; cbn;
      try (intros _; eexists; reflexivity).
    intros [H|[H|H]]; edestruct H; reflexivity.
  - intros f cmd ex out st pid_ w1 Ht Hc He Hrun result.
    unfold RunInstruction. eff_unfold. unfold eff_lift. cbn.
    rewrite Ht, Hc, He. cbn. rewrite Hrun.
    destruct (beaconContact a) as [c|]; [reflexivity|].
    eexists. reflexivity.
Qed.

(** *** Payloads *)

Lemma obtainPayload_on_disk a payload location w :
  fileExists location w = true ->
  obtainPayload a payload location w = (Done true, w, []).
Proof.
  intros He. unfold obtainPayload. eff_unfold. unfold eff_read.
  rewrite He. reflexivity.
Qed.

Lemma obtainPayload_no_contact a payload location w :
  fileExists location w = false ->
  beaconContact a = None ->
  exists why, obtainPayload a payload location w = (Panic why, w, []).
Proof.
  intros He Hc. unfold obtainPayload. eff_unfold. unfold eff_read.
  rewrite He, Hc. cbn. eexists. reflexivity.
Qed.

Lemma obtainPayload_contact a c payload location w :
  beaconContact a = Some c ->
  exists b w' t,
    obtainPayload a payload location w = (Done b, w', t) /\
    (fetches t = [] \/ fetches t = [payload]) /\
    (forall l bytes, EvWritePayloadBytes l bytes ∈ t ->
                     l = location /\ bytes <> "").
Proof.
  intros Hc. unfold obtainPayload. eff_unfold. unfold eff_read.
  destruct (fileExists location w); cbn [negb].
  - exists true, w, []. split; [reflexivity|]. split; [left; reflexivity|].
    intros l bytes Hin. inversion Hin.
  - rewrite Hc.
    destruct (GetPayloadBytes c (GetTrimmedProfile a) payload w)
      as [payloadBytes w1] eqn:Hget.
    destruct (Z.ltb_spec 0 (Z.of_nat (String.length payloadBytes)))
      as [Hpos|Hz].
    + assert (Hne : payloadBytes <> "").
      { intros ->. cbn in Hpos. lia. }
      destruct (writePayloadBytes location payloadBytes w1)
        as [[e|] w2] eqn:Hwr; cbn [app].
      * exists false, w2; eexists. split; [reflexivity|].
        split; [right; reflexivity|].
        intros l bytes Hin.
        repeat (apply elem_of_cons in Hin; destruct Hin as [Hin|Hin];
                [try discriminate|]); try (inversion Hin; fail).
        injection Hin as -> ->. split; [reflexivity|exact Hne].
      * exists true, w2; eexists. split; [reflexivity|].
        split; [right; reflexivity|].
        intros l bytes Hin.
        repeat (apply elem_of_cons in Hin; destruct Hin as [Hin|Hin];
                [try discriminate|]); try (inversion Hin; fail).
        injection Hin as -> ->. split; [reflexivity|exact Hne].
    + cbn [app]. exists false, w1; eexists. split; [reflexivity|].
      split; [right; reflexivity|].
      intros l bytes Hin.
      repeat (apply elem_of_cons in Hin; destruct Hin as [Hin|Hin];
              [try discriminate|]); inversion Hin.
Qed.

Lemma fetches_app (t1 t2 : list HostEv) :
  fetches (t1 ++ t2) = fetches t1 ++ fetches t2.
Proof. unfold fetches. apply omap_app. Qed.

Lemma downloadLoop_contact a c payloads :
  beaconContact a = Some c ->
  forall acc w,
  exists dropped w' t,
    downloadLoop a payloads acc w = (Done (acc ++ dropped), w', t) /\
    dropped `sublist_of` payloadLocations payloads /\
    fetches t `sublist_of` (reflect_String <$> payloads) /\
    (forall l bytes, EvWritePayloadBytes l bytes ∈ t ->
                     l ∈ payloadLocations payloads /\ bytes <> "").
Proof.
  intros Hc. induction payloads as [|v rest IH]; intros acc w.
  - exists [], w, []. cbn. rewrite app_nil_r.
    split; [reflexivity|]. split; [constructor|]. split; [constructor|].
    intros l bytes Hin. inversion Hin.
  - cbn [downloadLoop]. unfold mbind, eff_mbind, eff_bind.
    destruct (obtainPayload_contact a c (reflect_String v)
                (filepath_Join (reflect_String v)) w Hc)
      as (b & w1 & t1 & -> & Hf1 & Hw1).
    destruct (IH (if b then acc ++ [filepath_Join (reflect_String v)]
                  else acc) w1)
      as (dropped & w2 & t2 & -> & Hsub & Hfet & Hw2).
    exists (if b then filepath_Join (reflect_String v) :: dropped
            else dropped), w2, (t1 ++ t2).
    split; [|split; [|split]].
    + destruct b; [rewrite <- app_assoc|]; reflexivity.
    + cbn. destruct b; [apply sublist_skip|apply sublist_cons]; exact Hsub.
    + rewrite fetches_app. cbn.
      destruct Hf1 as [->| ->]; cbn;
        [apply sublist_cons|apply sublist_skip]; exact Hfet.
    + intros l bytes Hin. apply elem_of_app in Hin. destruct Hin as [Hin|Hin].
      * destruct (Hw1 _ _ Hin) as [-> Hne]. split; [|exact Hne].
        cbn. apply elem_of_cons. left. reflexivity.
      * destruct (Hw2 _ _ Hin) as [Hl Hne]. split; [|exact Hne].
        cbn. apply elem_of_cons. right. exact Hl.
Qed.

Lemma downloadLoop_on_disk a payloads w :
  (forall l, l ∈ payloadLocations payloads -> fileExists l w = true) ->
  forall acc,
    downloadLoop a payloads acc w
    = (Done (acc ++ payloadLocations payloads), w, []).
Proof.
  induction payloads as [|v rest IH]; intros Hall acc.
  - cbn. rewrite app_nil_r. reflexivity.
  - cbn [downloadLoop]. unfold mbind, eff_mbind, eff_bind.
    rewrite obtainPayload_on_disk
      by (apply Hall; cbn; apply elem_of_cons; left; reflexivity).
    rewrite IH
      by (intros l Hl; apply Hall; cbn; apply elem_of_cons; right; exact Hl).
    cbn. rewrite <- app_assoc. reflexivity.
Qed.

Lemma downloadLoop_no_contact a payloads w :
  beaconContact a = None ->
  (exists l, l ∈ payloadLocations payloads /\ fileExists l w = false) ->
  forall acc,
    exists why, downloadLoop a payloads acc w = (Panic why, w, []).
Proof.
  intros Hc. induction payloads as [|v rest IH]; intros (l & Hl & Hmiss) acc.
  - inversion Hl.
  - cbn [downloadLoop]. unfold mbind, eff_mbind, eff_bind.
    destruct (fileExists (filepath_Join (reflect_String v)) w) eqn:Hex.
    + rewrite (obtainPayload_on_disk _ _ _ _ Hex).
      cbn in Hl. apply elem_of_cons in Hl. destruct Hl as [->|Hl];
        [congruence|].
      destruct (IH (ex_intro _ l (conj Hl Hmiss))
                  (acc ++ [filepath_Join (reflect_String v)])) as [why ->].
      exists why. reflexivity.
    + destruct (obtainPayload_no_contact a (reflect_String v) _ w Hex Hc)
        as [why ->].
      exists why. reflexivity.
Qed.

(** X17. With a beacon contact [DownloadPayloads] always returns. The
    locations it returns are, in order, among the locations of the
    listed payloads; the payloads it asks the contact for are, in
    order, among the listed ones, each asked for at most once per
    listing; and it writes only non-empty content, only to a location
    of a listed payload. *)
Theorem DownloadPayloads_with_contact a c payloads w :
  beaconContact a = Some c ->
  exists dropped w' t,
    DownloadPayloads a payloads w = (Done dropped, w', t) /\
    dropped `sublist_of` payloadLocations payloads /\
    fetches t `sublist_of` (reflect_String <$> payloads) /\
    (forall l bytes, EvWritePayloadBytes l bytes ∈ t ->
                     l ∈ payloadLocations payloads /\ bytes <> "").
Proof.
  intros Hc. unfold DownloadPayloads.
  destruct (downloadLoop_contact a c payloads Hc [] w)
    as (dropped & w' & t & Hrun & H).
  exists dropped, w', t. split; [exact Hrun|exact H].
Qed.

(** X18. When every listed payload is on disk already,
    [DownloadPayloads] returns all their locations in order and does
    nothing else: no request to the contact, no write, the world as it
    was. This holds without a beacon contact too. *)
Theorem DownloadPayloads_all_on_disk a payloads w :
  (forall l, l ∈ payloadLocations payloads -> fileExists l w = true) ->
  DownloadPayloads a payloads w = (Done (payloadLocations payloads), w, []).
Proof.
  intros Hall. unfold DownloadPayloads.
  rewrite (downloadLoop_on_disk a payloads w Hall []). reflexivity.
Qed.

(** X19. Without a beacon contact, [DownloadPayloads] panics as soon
    as one listed payload is not on disk, before any request or
    write. *)
Theorem DownloadPayloads_without_contact a payloads w :
  beaconContact a = None ->
  (exists l, l ∈ payloadLocations payloads /\ fileExists l w = false) ->
  exists why, DownloadPayloads a payloads w = (Panic why, w, []).
Proof.
  intros Hc Hmiss. unfold DownloadPayloads.
  exact (downloadLoop_no_contact a payloads w Hc Hmiss []).
Qed.
End AgentModel.

(** ** The properties on the concrete world *)

Lemma fresh_agentOk : agentOk Demo.fresh.
Proof.
  split; [|split].
  - split; [reflexivity|]. right. split; reflexivity.
  - constructor.
  - intros k c Hk. cbn in Hk. rewrite lookup_empty in Hk. discriminate.
Qed.

(** History [A; B; C], all rejecting: six rotations negotiate with
    A, B, C, A, B, C, and the cursor is back at 0. *)
Example rotations_ABC :
  (negotiations (rotations Demo.modifyProfile 6 Demo.rotating 0%nat).2).*2
  = GetConfig <$> [Demo.chanA; Demo.chanB; Demo.chanC;
                   Demo.chanA; Demo.chanB; Demo.chanC].
Proof. vm_compute. reflexivity. Qed.

Lemma rotation_round_robin_witness :
  cursorOk Demo.rotating /\
  exists an wn tn,
    rotations Demo.modifyProfile 6 Demo.rotating 0%nat = (Done an, wn, tn) /\
    length (negotiations tn) = 6%nat.
Proof.
  assert (Hc : cursorOk Demo.rotating).
  { split; [reflexivity|]. left. reflexivity. }
  split; [exact Hc|].
  destruct (rotation_round_robin Demo.modifyProfile Demo.rotating 0%nat Hc)
    as [_ Hn].
  destruct (Hn 6%nat) as (an & wn & tn & Hrun & Hlen & _).
  - discriminate.
  - repeat constructor; eexists; reflexivity.
  - exists an, wn, tn. split; [exact Hrun|exact Hlen].
Defined.

Lemma recordSuccess_history_dedup_witness :
  tryingSwitchedContact Demo.switchingNew = true /\
  NoDup (historyIds Demo.switchingNew) /\
  length (filter (eq (GetIdentifier (agentComms Demo.switchingNew)))
                 (historyIds (recordSuccesses 3 Demo.switchingNew))) = 1%nat.
Proof.
  assert (Hnd : NoDup (historyIds Demo.switchingNew)) by constructor.
  split; [reflexivity|]. split; [exact Hnd|].
  destruct (recordSuccess_history_dedup Demo.channels Demo.modifyProfile
              Demo.switchingNew) as (_ & _ & _ & Hn).
  destruct (Hn eq_refl Hnd 3%nat) as [_ Hone]; [lia|]. exact Hone.
Defined.

(** C4 on the code: a switch is in progress and the active channel is
    already in the history; after [UpdateSuccessfulContacts] the flag
    is still set. *)
Theorem UpdateSuccessfulContacts_leaves_flag_set :
  tryingSwitchedContact Demo.switchingKnown = true /\
  GetIdentifier (agentComms Demo.switchingKnown)
    ∈ historyIds Demo.switchingKnown /\
  UpdateSuccessfulContacts Demo.switchingKnown = Demo.switchingKnown /\
  tryingSwitchedContact (UpdateSuccessfulContacts Demo.switchingKnown) = true.
Proof.
  split; [reflexivity|]. split; [constructor|]. split; reflexivity.
Qed.

(** With a new identity the flag is cleared, as line 197 says. *)
Example UpdateSuccessfulContacts_clears_flag_when_new :
  tryingSwitchedContact (UpdateSuccessfulContacts Demo.switchingNew) = false /\
  successfulCommsChannels (UpdateSuccessfulContacts Demo.switchingNew)
    = [Demo.httpChannel].
Proof. split; reflexivity. Qed.

Lemma rejected_activation_leaves_agent_witness :
  Validate (P2pReceiver := nat) Demo.dnsChannel
      (GetFullProfile Demo.withDns) 0%nat
    = (Done (false, None, withVerdict Demo.dnsChannel false), 1%nat,
       [EvC2RequirementsMet Demo.DNS (GetFullProfile Demo.withDns)
          (GetConfig Demo.dnsChannel)]) /\
  validateAndSetCommsChannelObj Demo.modifyProfile Demo.withDns
    Demo.dnsChannel 0%nat
    = (Done (Some (errors_New
         "Requirements not met for C2 channel DNS for server http://c2:8888"),
             Demo.withDns), 1%nat,
       [EvC2RequirementsMet Demo.DNS (GetFullProfile Demo.withDns)
          (GetConfig Demo.dnsChannel)]).
Proof.
  assert (Hv : Validate (P2pReceiver := nat) Demo.dnsChannel
      (GetFullProfile Demo.withDns) 0%nat
    = (Done (false, None, withVerdict Demo.dnsChannel false), 1%nat,
       [EvC2RequirementsMet Demo.DNS (GetFullProfile Demo.withDns)
          (GetConfig Demo.dnsChannel)])) by reflexivity.
  split; [exact Hv|].
  exact (proj1 (rejected_activation_leaves_agent Demo.channels
                  Demo.modifyProfile _ _ _ _ _ _ _ Hv)).
Defined.

Lemma accepted_activation_is_complete_witness :
  Validate (P2pReceiver := nat)
      (mkAgentCommsChannel "http://c2:8888" "TCP" "k" (Some Demo.TCP) false)
      (GetFullProfile Demo.fresh) 0%nat
    = (Done (true, Some {[ "paw" := "p-17" ]},
             mkAgentCommsChannel "http://c2:8888" "TCP" "k" (Some Demo.TCP) true),
       1%nat,
       [EvC2RequirementsMet Demo.TCP (GetFullProfile Demo.fresh)
          (GetConfig (mkAgentCommsChannel "http://c2:8888" "TCP" "k"
                        (Some Demo.TCP) false))]) /\
  exists a',
    (validateAndSetCommsChannelObj Demo.modifyProfile Demo.fresh
       (mkAgentCommsChannel "http://c2:8888" "TCP" "k" (Some Demo.TCP) false)
       0%nat).1.1 = Done (None, a') /\
    validatedCommsChannels a' !! "TCP-http://c2:8888"
      = Some (mkAgentCommsChannel "http://c2:8888" "TCP" "k"
                (Some Demo.TCP) true) /\
    paw (profile a') = "p-17" /\
    c2Protocol (agentComms a') = "TCP".
Proof.
  assert (Hv : Validate (P2pReceiver := nat)
      (mkAgentCommsChannel "http://c2:8888" "TCP" "k" (Some Demo.TCP) false)
      (GetFullProfile Demo.fresh) 0%nat
    = (Done (true, Some {[ "paw" := "p-17" ]},
             mkAgentCommsChannel "http://c2:8888" "TCP" "k" (Some Demo.TCP) true),
       1%nat,
       [EvC2RequirementsMet Demo.TCP (GetFullProfile Demo.fresh)
          (GetConfig (mkAgentCommsChannel "http://c2:8888" "TCP" "k"
                        (Some Demo.TCP) false))])) by reflexivity.
  split; [exact Hv|].
  destruct (accepted_activation_is_complete Demo.modifyProfile _ _ _ _ _ _ _ Hv)
    as (a' & Hrun & _ & _ & Hreg & Hprof & Hact & _).
  exists a'. rewrite Hrun. split; [reflexivity|]. split; [exact Hreg|].
  rewrite Hprof, Hact. split; reflexivity.
Defined.

(** The receivers of [Demo.fresh] are told, in order, after the
    negotiation. *)
Example accepted_activation_trace :
  (validateAndSetCommsChannelObj Demo.modifyProfile Demo.fresh
     (mkAgentCommsChannel "http://c2:8888" "TCP" "k" (Some Demo.TCP) false)
     0%nat).2
  = [EvC2RequirementsMet Demo.TCP (GetFullProfile Demo.fresh)
       (GetConfig (mkAgentCommsChannel "http://c2:8888" "TCP" "k"
                     (Some Demo.TCP) false));
     EvUpdateUpstreamComs 1%nat (Some Demo.TCP);
     EvUpdateUpstreamServer 1%nat "http://c2:8888";
     EvUpdateUpstreamComs 2%nat (Some Demo.TCP);
     EvUpdateUpstreamServer 2%nat "http://c2:8888"].
Proof. reflexivity. Qed.

Lemma unknown_transport_fails_witness :
  Demo.channels !! "SMB" = None /\
  AgentCommsFactory Demo.channels "http://c2:8888" "SMB" "k"
    = (None, Some (UnknownTransport "SMB")) /\
  ValidateAndSetCommsChannel Demo.channels Demo.modifyProfile Demo.withDns
    "http://c2:8888" "SMB" "k" 0%nat
    = (Done (Some (UnknownTransport "SMB"), Demo.withDns), 0%nat, []).
Proof.
  assert (Hn : Demo.channels !! "SMB" = None) by reflexivity.
  split; [exact Hn|].
  destruct (unknown_transport_fails Demo.channels Demo.modifyProfile
              "SMB" "http://c2:8888" "k" Hn) as [Hf Hrest].
  split; [exact Hf|].
  destruct (Hrest Demo.withDns 0%nat) as [_ Hrun]; [reflexivity|exact Hrun].
Defined.

(** C8 as stated fails: the DNS identity for the active address is in
    the registry with key [old]; a switch to DNS with the key [new]
    negotiates with [old]. *)
Lemma switch_reuses_stored_key :
  negotiations (SwitchC2Contact Demo.channels Demo.modifyProfile
                  Demo.withDns "DNS" "new" 0%nat).2
    = [(Demo.DNS, GetConfig Demo.dnsChannel)] /\
  GetConfig Demo.dnsChannel !! "c2Key" = Some "old" /\
  chosenKey Demo.withDns "new" = "new" /\
  ~ switchUsesChosenKey Demo.channels Demo.modifyProfile
      Demo.withDns "DNS" "new" 0%nat.
Proof.
  assert (Hneg : negotiations (SwitchC2Contact Demo.channels Demo.modifyProfile
                  Demo.withDns "DNS" "new" 0%nat).2
    = [(Demo.DNS, GetConfig Demo.dnsChannel)]) by reflexivity.
  split; [exact Hneg|]. split; [reflexivity|]. split; [reflexivity|].
  intros Huse. destruct (Huse Demo.DNS (GetConfig Demo.dnsChannel)) as [_ Hk].
  - rewrite Hneg. constructor.
  - discriminate Hk.
Qed.

Lemma switch_negotiates_fresh_or_stored_witness :
  validatedCommsChannels Demo.fresh
    !! identifierOf "DNS" (address (agentComms Demo.fresh)) = None /\
  switchUsesChosenKey Demo.channels Demo.modifyProfile
    Demo.fresh "DNS" "new" 0%nat /\
  negotiations (SwitchC2Contact Demo.channels Demo.modifyProfile
                  Demo.fresh "DNS" "" 0%nat).2
    = [(Demo.DNS, GetConfig (mkAgentCommsChannel "http://c2:8888" "DNS" "k0"
                               (Some Demo.DNS) false))].
Proof.
  assert (Hmiss : validatedCommsChannels Demo.fresh
    !! identifierOf "DNS" (address (agentComms Demo.fresh)) = None)
    by reflexivity.
  split; [exact Hmiss|]. split.
  - destruct (switch_negotiates_fresh_or_stored Demo.channels
                Demo.modifyProfile Demo.fresh "DNS" "new" 0%nat)
      as (_ & Hfresh & _).
    exact (proj1 (Hfresh Hmiss)).
  - destruct (switch_negotiates_fresh_or_stored Demo.channels
                Demo.modifyProfile Demo.fresh "DNS" "" 0%nat)
      as (_ & Hfresh & _).
    exact (proj2 (Hfresh Hmiss) Demo.DNS eq_refl).
Defined.

Lemma registry_holds_only_validated_witness :
  agentOk Demo.fresh /\
  exists a' w' t,
    runOps Demo.channels Demo.modifyProfile
      [OpSwitchC2Contact "TCP" ""; OpSwitchC2Contact "DNS" "";
       OpTrySwitched true; OpUpdateSuccessful; OpSwitchToPrevious]
      Demo.fresh 0%nat = (Done a', w', t) /\
    forall k c, validatedCommsChannels a' !! k = Some c -> validated c = true.
Proof.
  split; [exact fresh_agentOk|].
  destruct (registry_holds_only_validated Demo.channels Demo.modifyProfile
              Demo.fresh) as (_ & _ & Hops).
  exact (Hops _ 0%nat fresh_agentOk).
Defined.

Lemma registry_hit_discards_key_witness :
  validatedCommsChannels Demo.withDns !! identifierOf "DNS" "http://c2:8888"
    = Some Demo.dnsChannel /\
  GetCommunicationChannel Demo.channels Demo.withDns
    "http://c2:8888" "DNS" "new" = Done (Demo.dnsChannel, None) /\
  negotiations (SwitchC2Contact Demo.channels Demo.modifyProfile
                  Demo.withDns "DNS" "new" 0%nat).2
    = [(Demo.DNS, GetConfig Demo.dnsChannel)].
Proof.
  assert (Hhit : validatedCommsChannels Demo.withDns
                   !! identifierOf "DNS" "http://c2:8888"
                 = Some Demo.dnsChannel) by reflexivity.
  split; [exact Hhit|].
  destruct (registry_hit_discards_key Demo.channels Demo.modifyProfile
              Demo.withDns "http://c2:8888" "DNS" Demo.dnsChannel Hhit)
    as (Hget & Hswitch & _).
  split; [exact (Hget "new")|].
  exact (proj2 (Hswitch eq_refl "new" 0%nat)).
Defined.

(** C2 on the code: three beacons whose outer text decodes. Without
    [instructions], or with [instructions] an array, the type assertion
    of line 150 panics; with [sleep] a string, the one of line 154
    does. A text that does not decode gives the nil map, and a
    well-formed beacon is returned with [sleep] and [watchdog] as
    integers. *)
Theorem processBeacon_panics_on_malformed :
  processBeacon (fun z => z) Demo.json_decode Demo.beaconNoInstructions
    = Panic "interface conversion: interface {} is not string" /\
  processBeacon (fun z => z) Demo.json_decode Demo.beaconArrayInstructions
    = Panic "interface conversion: interface {} is not string" /\
  processBeacon (fun z => z) Demo.json_decode Demo.beaconStringSleep
    = Panic "interface conversion: interface {} is not float64" /\
  processBeacon (fun z => z) Demo.json_decode "null"
    = Panic "interface conversion: interface {} is not string" /\
  processBeacon (fun z => z) Demo.json_decode "{" = Done None /\
  processBeacon (fun z => z) Demo.json_decode Demo.beaconGood
    = Done (Some {[ "instructions" := VSlice []; "sleep" := VInt 60;
                    "watchdog" := VInt 0 ]}).
Proof. repeat split; vm_compute; reflexivity. Qed.

(** ** Further properties on the concrete world *)

Lemma withDns_registryOk : registryOk Demo.withDns.
Proof.
  intros k c Hk. cbn in Hk.
  apply lookup_insert_Some in Hk. destruct Hk as [[<- <-]|[_ Hk]].
  - split; [reflexivity|]. split; [eexists; reflexivity|reflexivity].
  - apply lookup_singleton_Some in Hk. destruct Hk as [<- <-].
    split; [reflexivity|]. split; [eexists; reflexivity|reflexivity].
Qed.

Lemma activation_registers_witness :
  registryOk Demo.fresh /\
  exists a',
    (ValidateAndSetCommsChannel Demo.channels Demo.modifyProfile Demo.fresh
       "http://c2:8888" "TCP" "k" 0%nat).1.1 = Done (None, a') /\
    validatedCommsChannels a' !! "TCP-http://c2:8888" = Some (agentComms a') /\
    validated (agentComms a') = true.
Proof.
  assert (Hok : registryOk Demo.fresh) by exact (proj2 (proj2 fresh_agentOk)).
  split; [exact Hok|].
  eassert (Hrun : ValidateAndSetCommsChannel Demo.channels Demo.modifyProfile
                    Demo.fresh "http://c2:8888" "TCP" "k" 0%nat
                  = (Done (None, _), _, _)) by reflexivity.
  eexists. split; [rewrite Hrun; reflexivity|].
  destruct (activation_registers Demo.channels Demo.modifyProfile _ _ _ _ _ _
              _ _ Hok Hrun) as (Hreg & Hval & _).
  split; [exact Hreg|exact Hval].
Defined.

Lemma withDns_agentOk : agentOk Demo.withDns.
Proof.
  split; [|split].
  - split; [reflexivity|]. right. split; reflexivity.
  - constructor.
  - exact withDns_registryOk.
Qed.

Lemma stores_are_append_only_witness :
  exists a' w' t,
    runOps Demo.channels Demo.modifyProfile
      [OpSwitchC2Contact "TCP" EmptyString; OpTrySwitched true;
       OpUpdateSuccessful; OpSwitchToPrevious]
      Demo.withDns 0%nat = (Done a', w', t) /\
    storesGrow Demo.withDns a'.
Proof.
  destruct (runOps_total Demo.channels Demo.modifyProfile
      [OpSwitchC2Contact "TCP" EmptyString; OpTrySwitched true;
       OpUpdateSuccessful; OpSwitchToPrevious]
      Demo.withDns 0%nat withDns_agentOk) as (a' & w' & t & Hrun & _).
  exists a', w', t. split; [exact Hrun|].
  exact (stores_are_append_only Demo.channels Demo.modifyProfile _ _ _ _ _ _
           Hrun).
Defined.

Lemma rotations_move_cursor_witness :
  cursorOk Demo.rotating /\
  exists an wn tn,
    rotations Demo.modifyProfile 6 Demo.rotating 0%nat = (Done an, wn, tn) /\
    successFulCommsChannelIndex an = 0.
Proof.
  assert (Hc : cursorOk Demo.rotating).
  { split; [reflexivity|]. left. reflexivity. }
  split; [exact Hc|].
  destruct (rotations_move_cursor Demo.modifyProfile 6 Demo.rotating 0%nat Hc)
    as (an & wn & tn & Hrun & _ & _ & Hback); [discriminate|].
  exists an, wn, tn. split; [exact Hrun|].
  rewrite Hback; [reflexivity|]. exists 2%nat. reflexivity.
Defined.

Lemma rotation_outcome_witness :
  successfulCommsChannels Demo.rotating !! 0%nat = Some Demo.chanA /\
  C2RequirementsMet Demo.DNS (GetFullProfile Demo.rotating)
    (GetConfig Demo.chanA) 0%nat = ((false, None), 1%nat) /\
  exists t,
    switchToPreviousSuccessfulCommsChannel Demo.modifyProfile Demo.rotating
      0%nat
    = (Done (Some (RequirementsNotMet Demo.chanA),
             set_successFulCommsChannelIndex Demo.rotating 1), 1%nat, t).
Proof.
  assert (Hat : successfulCommsChannels Demo.rotating !! 0%nat
                = Some Demo.chanA) by reflexivity.
  assert (Hneg : C2RequirementsMet Demo.DNS (GetFullProfile Demo.rotating)
    (GetConfig Demo.chanA) 0%nat = ((false, None), 1%nat)) by reflexivity.
  split; [exact Hat|]. split; [exact Hneg|].
  destruct (rotation_outcome Demo.modifyProfile Demo.rotating 0%nat
              Demo.chanA Demo.DNS false None 1%nat)
    as (e & a' & w' & t & Hrun & _ & -> & -> & ->);
    [cbn; lia|exact Hat|reflexivity|exact Hneg|].
  exists t. exact Hrun.
Defined.

Lemma identifier_determines_channel_witness :
  noDash "HTTP" = true /\
  identifierOf "HTTP" "c2" = "HTTP-c2" /\
  ("HTTP" = "HTTP" /\ "c2" = "c2") /\
  identifierOf "a-b" "c" = identifierOf "a" "b-c".
Proof.
  split; [reflexivity|]. split; [reflexivity|].
  destruct identifier_determines_channel as [Hinj Hshift].
  split; [|exact (Hshift "a" "b" "c")].
  exact (Hinj "HTTP" "c2" "HTTP" "c2" eq_refl eq_refl eq_refl).
Defined.

Lemma GetCommunicationChannel_bound_witness :
  registryOk Demo.withDns /\
  GetCommunicationChannel Demo.channels Demo.withDns
    "http://c2:8888" "DNS" "new" = Done (Demo.dnsChannel, None) /\
  c2Protocol Demo.dnsChannel = "DNS" /\
  address Demo.dnsChannel = "http://c2:8888".
Proof.
  split; [exact withDns_registryOk|]. split; [reflexivity|].
  destruct (GetCommunicationChannel_bound Demo.channels Demo.withDns)
    as [Hb _].
  apply (Hb "http://c2:8888" "DNS" "new" Demo.dnsChannel);
    [exact withDns_registryOk|reflexivity| |reflexivity].
  intros k c' Hk. cbn in Hk.
  apply lookup_insert_Some in Hk. destruct Hk as [[_ <-]|[_ Hk]];
    [reflexivity|].
  apply lookup_singleton_Some in Hk. destruct Hk as [_ <-]. reflexivity.
Defined.

Lemma setInitialCommsChannel_outcome_witness :
  setInitialCommsChannel Demo.channels Demo.modifyProfile Demo.fresh
    "http://c2:9999" ∅ 0%nat
  = (Done (Some (errors_New
       "C2 config does not contain c2 protocol. Missing key: c2Name"),
           Demo.fresh), 0%nat, []) /\
  exists a' w' t,
    setInitialCommsChannel Demo.channels Demo.modifyProfile Demo.fresh
      "http://c2:9999" {[ "c2Name" := "TCP" ]} 0%nat
    = (Done (None, a'), w', t) /\
    agentComms a'
    = mkAgentCommsChannel "http://c2:9999" "TCP" EmptyString
        (Some Demo.TCP) true.
Proof.
  split.
  - exact (proj1 (setInitialCommsChannel_outcome Demo.channels
                    Demo.modifyProfile Demo.fresh "http://c2:9999" ∅ 0%nat)
             eq_refl).
  - exact (proj2 (setInitialCommsChannel_outcome Demo.channels
                    Demo.modifyProfile Demo.fresh "http://c2:9999"
                    {[ "c2Name" := "TCP" ]} 0%nat)
             "TCP" Demo.TCP (Some {[ "paw" := "p-17" ]}) 1%nat
             eq_refl eq_refl eq_refl eq_refl).
Defined.

Lemma processBeacon_alive_witness :
  wellFormedBeacon Demo.json_decode Demo.beaconGood
    (list_to_map [("instructions", VString "[]"); ("sleep", VFloat64 60);
                  ("watchdog", VFloat64 0)])
    (VSlice []) 60 0 /\
  exists r,
    processBeacon (fun z => z) Demo.json_decode Demo.beaconGood
      = Done (Some r) /\
    r !! "sleep" = Some (VInt 60) /\
    r !! "instructions" = Some (VSlice []).
Proof.
  assert (Hwf : wellFormedBeacon Demo.json_decode Demo.beaconGood
    (list_to_map [("instructions", VString "[]"); ("sleep", VFloat64 60);
                  ("watchdog", VFloat64 0)])
    (VSlice []) 60 0).
  { eexists _, "[]". repeat split; reflexivity. }
  split; [exact Hwf|].
  destruct (processBeacon_alive (fun z => z) Demo.json_decode _ _ _ _ _ Hwf)
    as [Hrun _].
  eexists. split; [exact Hrun|]. split; reflexivity.
Defined.

Lemma processBeacon_returns_iff_witness :
  exists r,
    processBeacon (fun z => z) Demo.json_decode Demo.beaconGood = Done r.
Proof.
  pose proof (processBeacon_returns_iff (fun z => z) Demo.json_decode
                Demo.beaconGood) as H.
  change (Demo.json_decode Demo.beaconGood)
    with (Some (VMap [("instructions", VString "[]" : GoVal Z);
                      ("sleep", VFloat64 60); ("watchdog", VFloat64 0)]))
    in H.
  cbv beta iota zeta in H. destruct H as [[_ Hback] _].
  apply Hback. exists "[]". split; [reflexivity|]. right.
  split; eexists; reflexivity.
Defined.

Lemma Beacon_dead_witness :
  (exists why,
     Beacon (fun z => z) Demo.json_decode Demo.fresh 0%nat
     = (Panic why, 0%nat, [])) /\
  (Beacon (fun z => z) Demo.json_decode Demo.beaconing 0%nat).1.1 = Done None.
Proof.
  split.
  - exact (proj1 (Beacon_dead (fun z => z) Demo.json_decode Demo.fresh 0%nat)
             eq_refl).
  - assert (Hget : GetBeaconBytes Demo.HTTP
                      (GetFullProfile (float64 := Z) Demo.beaconing) 0%nat
                    = (None, 1%nat)) by reflexivity.
    destruct (proj2 (Beacon_dead (fun z => z) Demo.json_decode Demo.beaconing
                       0%nat) Demo.HTTP None 1%nat eq_refl Hget)
      as (_ & _ & Hdead).
    apply Hdead. left. reflexivity.
Defined.

Lemma SetCommunicationChannels_sound_witness :
  exists a',
    (SetCommunicationChannels Demo.channels Demo.starting
       {[ "c2Name" := "DNS" ]} 0%nat).1.1 = Done (None, a') /\
    beaconContact (base a') = Some Demo.HTTP /\
    exists c, beaconContact (base a') = Some c /\
              heartbeatContact a' = Some c.
Proof.
  eassert (Hrun' : SetCommunicationChannels Demo.channels Demo.starting
                     {[ "c2Name" := "DNS" ]} 0%nat
                   = (Done (None, _), _, _)) by reflexivity.
  destruct (SetCommunicationChannels_sound Demo.channels Demo.starting
              {[ "c2Name" := "DNS" ]} 0%nat)
    as (e & a' & w' & t & Hrun & _ & Hnone & _).
  rewrite Hrun' in Hrun. injection Hrun as <- <- <- <-.
  eexists. split; [rewrite Hrun'; reflexivity|]. split; [reflexivity|].
  destruct (Hnone eq_refl) as (c & Hb & Hh & _).
  exists c. split; [exact Hb|exact Hh].
Defined.

Lemma Initialize_outcomes_witness :
  Agent_Initialize Demo.channels Demo.hostFactsNoUser Demo.filepath_Base
    (fun z => z) Demo.starting "http://c2:8888" "red" ∅ false 5 0%nat
  = (Done (None, Demo.starting), 1%nat, []) /\
  exists a',
    (Agent_Initialize Demo.channels Demo.hostFacts Demo.filepath_Base
       (fun z => z) Demo.starting "http://c2:8888" "red" ∅ false 5 0%nat).1.1
    = Done (None, a') /\
    a' <> Demo.starting /\
    username (profile (base a')) = "user" /\
    exe_name (profile (base a')) = "agent".
Proof.
  split.
  - exact (proj1 (proj2 (Initialize_outcomes Demo.channels
                           Demo.hostFactsNoUser Demo.filepath_Base
                           (fun z => z) Demo.starting "http://c2:8888" "red"
                           ∅ false 5 0%nat))
             "host1" None _ "user" eq_refl eq_refl eq_refl).
  - eassert (Hrun : Agent_Initialize Demo.channels Demo.hostFacts
                      Demo.filepath_Base (fun z => z) Demo.starting
                      "http://c2:8888" "red" ∅ false 5 0%nat
                    = (Done (None, _), _, _)) by reflexivity.
    eexists. split; [rewrite Hrun; reflexivity|].
    destruct (proj2 (proj2 (Initialize_outcomes Demo.channels Demo.hostFacts
                              Demo.filepath_Base (fun z => z) Demo.starting
                              "http://c2:8888" "red" ∅ false 5 0%nat))
                _ _ _ Hrun)
      as [(_ & _ & u & e & out & Hu & _)
         |(c & userName & _ & _ & _ & Hp & _ & _ & Hname)].
    + discriminate Hu.
    + split; [discriminate|]. rewrite Hp. split; [|reflexivity].
      destruct Hname as [Hname|(u & e & e' & Hu & _)]; [|discriminate Hu].
      injection Hname as <-. reflexivity.
Defined.

Lemma RunInstruction_outcome_witness :
  (exists why,
     RunInstruction (fun z => z) Demo.beaconing
       (delete "timeout" Demo.instruction) [] 0%nat = (Panic why, 0%nat, [])) /\
  exists result,
    RunInstruction (fun z => z) Demo.beaconing Demo.instruction [] 0%nat
    = (Done tt, 2%nat,
       [EvRunCommand "whoami" [] "sh" 60;
        EvSendExecutionResults Demo.HTTP (GetTrimmedProfile Demo.beaconing)
          result]) /\
    result !! "id" = Some (VString "i-1") /\
    result !! "output" = Some (VString "ran whoami").
Proof.
  split.
  - apply (proj1 (RunInstruction_outcome (fun z => z) Demo.beaconing
                    (delete "timeout" Demo.instruction) [] 0%nat)).
    left. intros f. discriminate.
  - eexists. split.
    + exact (proj2 (RunInstruction_outcome (fun z => z) Demo.beaconing
                      Demo.instruction [] 0%nat)
               60 "whoami" "sh" _ _ _ 1%nat
               eq_refl eq_refl eq_refl eq_refl).
    + split; reflexivity.
Defined.

Lemma DownloadPayloads_with_contact_witness :
  beaconContact Demo.beaconing = Some Demo.HTTP /\
  exists dropped w' t,
    DownloadPayloads (fun s => s) Demo.beaconing
      [VString "on-disk.bin"; VString "new.bin"; VString "empty.bin";
       VString "readonly.bin"] 0%nat = (Done dropped, w', t) /\
    dropped `sublist_of` ["on-disk.bin"; "new.bin"; "empty.bin";
                          "readonly.bin"] /\
    fetches t `sublist_of` ["on-disk.bin"; "new.bin"; "empty.bin";
                            "readonly.bin"].
Proof.
  split; [reflexivity|].
  destruct (DownloadPayloads_with_contact (fun s => s) Demo.beaconing
              Demo.HTTP
              [VString "on-disk.bin"; VString "new.bin"; VString "empty.bin";
               VString "readonly.bin"] 0%nat eq_refl)
    as (dropped & w' & t & Hrun & Hd & Hf & _).
  exists dropped, w', t. split; [exact Hrun|]. split; [exact Hd|exact Hf].
Defined.

(** What that run does: [on-disk.bin] is there, [new.bin] is fetched
    and written, [empty.bin] is fetched and has no content,
    [readonly.bin] is fetched and cannot be written. *)
Example DownloadPayloads_run :
  DownloadPayloads (fun s => s) Demo.beaconing
    [VString "on-disk.bin"; VString "new.bin"; VString "empty.bin";
     VString "readonly.bin"] 0%nat
  = (Done ["on-disk.bin"; "new.bin"], 5%nat,
     [EvGetPayloadBytes Demo.HTTP (GetTrimmedProfile Demo.beaconing) "new.bin";
      EvWritePayloadBytes "new.bin" "bytes of new.bin";
      EvGetPayloadBytes Demo.HTTP (GetTrimmedProfile Demo.beaconing)
        "empty.bin";
      EvGetPayloadBytes Demo.HTTP (GetTrimmedProfile Demo.beaconing)
        "readonly.bin";
      EvWritePayloadBytes "readonly.bin" "bytes of readonly.bin"]).
Proof. reflexivity. Qed.

Lemma DownloadPayloads_all_on_disk_witness :
  DownloadPayloads (fun s => s) Demo.fresh
    [VString "on-disk.bin"; VString "on-disk.bin"] 0%nat
  = (Done ["on-disk.bin"; "on-disk.bin"], 0%nat, []).
Proof.
  apply (DownloadPayloads_all_on_disk (fun s => s) Demo.fresh
           [VString "on-disk.bin"; VString "on-disk.bin"] 0%nat).
  intros l Hl. cbn in Hl.
  repeat (apply elem_of_cons in Hl; destruct Hl as [->|Hl]; [reflexivity|]).
  inversion Hl.
Defined.

Lemma DownloadPayloads_without_contact_witness :
  beaconContact Demo.fresh = None /\
  exists why,
    DownloadPayloads (fun s => s) Demo.fresh
      [VString "on-disk.bin"; VString "new.bin"] 0%nat
    = (Panic why, 0%nat, []).
Proof.
  split; [reflexivity|].
  apply (DownloadPayloads_without_contact (fun s => s) Demo.fresh
           [VString "on-disk.bin"; VString "new.bin"] 0%nat eq_refl).
  exists "new.bin". split; [|reflexivity].
  cbn. apply elem_of_cons. right. apply elem_of_cons. left. reflexivity.
Defined.
